(** * A model of [optimized_jira_scrapper.py]

    The resilient paginated-fetch engine of the Jira scraper: the retry
    loop of [safe_request], the checkpoint files, the page plan computed
    with [range], and the loop of [scrape_project] that drains the
    completed page fetches.

    Python values that come out of [json.load] and [resp.json()] are
    modelled by the type [json] ([None] is [JNull]); exceptions are
    explicit; the file system and everything the program prints or sleeps
    is carried in a [world]. *)

From Stdlib Require Import ZArith List String Ascii Lia Sorted Permutation.
From stdpp Require Import base gmap strings list pretty.
Import ListNotations.

Local Open Scope Z_scope.
Set Warnings "-register-all".

(** ** Configuration (module constants of the script) *)

Definition BASE_URL : string := "https://issues.apache.org/jira/rest/api/2/search".
Definition OUTPUT_DIR : string := "output".
Definition CHECKPOINT_DIR : string := "checkpoints".
Definition MAX_RESULTS : Z := 50.
Definition MAX_RETRIES : Z := 5.
Definition RETRY_BACKOFF : Z := 5.
Definition MAX_WORKERS : Z := 5.

(** ** Python values *)

(** What [json.load] and [resp.json()] return: [None], booleans, integers,
    strings, lists and dicts (a dict as its items in insertion order, keys
    distinct).  JSON numbers with a fraction or an exponent are not
    modelled. *)
Inductive json : Type :=
| JNull
| JBool (b : bool)
| JInt (z : Z)
| JStr (s : string)
| JArr (l : list json)
| JObj (kv : list (string * json)).

(** The exceptions the script can meet; all of them are subclasses of
    [Exception], only [RequestException] is one of [requests]. *)
Inductive exn : Type :=
| RequestException (msg : string)
| JSONDecodeError
| ValueError
| TypeError
| AttributeError
| OSError
| OverflowError
| UnicodeDecodeError.

Inductive outcome (A : Type) : Type :=
| Ok (a : A)
| Raise (e : exn).
Arguments Ok {A} a.
Arguments Raise {A} e.

(** Truth value of a Python object, as [if x:] tests it. *)
Definition truthy (v : json) : bool :=
  match v with
  | JNull => false
  | JBool b => b
  | JInt z => negb (z =? 0)
  | JStr s => negb (String.eqb s EmptyString)
  | JArr l => match l with [] => false | _ => true end
  | JObj kv => match kv with [] => false | _ => true end
  end.

Fixpoint assoc_get (kv : list (string * json)) (k : string) : option json :=
  match kv with
  | [] => None
  | (k', v) :: rest => if String.eqb k' k then Some v else assoc_get rest k
  end.

(** [d.get(k, default)]: only a dict has the method. *)
Definition py_get (d : json) (k : string) (default : json) : outcome json :=
  match d with
  | JObj kv => Ok (match assoc_get kv k with Some v => v | None => default end)
  | _ => Raise AttributeError
  end.

(** An integer argument of [range]: [bool] is a subclass of [int]. *)
Definition py_index (v : json) : outcome Z :=
  match v with
  | JInt z => Ok z
  | JBool b => Ok (if b then 1 else 0)
  | _ => Raise TypeError
  end.

(** [x == 0] *)
Definition py_eq_zero (v : json) : bool :=
  match v with
  | JInt z => z =? 0
  | JBool b => negb b
  | _ => false
  end.

(** ** [range] *)

Fixpoint range_up (fuel : nat) (cur stop step : Z) : list Z :=
  match fuel with
  | O => []
  | S fuel' =>
      if cur <? stop then cur :: range_up fuel' (cur + step) stop step else []
  end.

Fixpoint range_down (fuel : nat) (cur stop step : Z) : list Z :=
  match fuel with
  | O => []
  | S fuel' =>
      if stop <? cur then cur :: range_down fuel' (cur + step) stop step else []
  end.

(** [list(range(start, stop, step))]: counting up for a positive step,
    down for a negative one, [ValueError] for a zero step.  The fuel is the
    width of the interval, which bounds the number of elements since
    [|step| >= 1]. *)
Definition py_range (start stop step : Z) : outcome (list Z) :=
  if step =? 0 then Raise ValueError
  else if 0 <? step then Ok (range_up (Z.to_nat (stop - start)) start stop step)
  else Ok (range_down (Z.to_nat (start - stop)) start stop step).

(** ** Page planner

    [pages = [start for start in range(start_checkpoint, total, MAX_RESULTS)]]
    with the page size as an argument; [scrape_project] passes
    [MAX_RESULTS]. *)
Definition plan (total_count resume_offset page_size : Z) : outcome (list Z) :=
  py_range resume_offset total_count page_size.

(** ceil(x / d) for a positive d *)
Definition ceil_div (x d : Z) : Z := (x + d - 1) / d.

(** ** Python strings

    A [str] is modelled by a Rocq string with one character per code
    point, so the model covers the strings whose code points are below
    U+0100; on those the functions below are the ones of Python. *)

Definition code (c : ascii) : N := N_of_ascii c.

(** [c.isspace()] *)
Definition is_space (c : ascii) : bool :=
  (((9 <=? code c) && (code c <=? 13)) || ((28 <=? code c) && (code c <=? 32))
   || (code c =? 133) || (code c =? 160))%N.

Fixpoint lstrip (s : list ascii) : list ascii :=
  match s with
  | c :: rest => if is_space c then lstrip rest else s
  | [] => []
  end.

(** [s.strip()] *)
Definition py_strip (s : string) : string :=
  string_of_list_ascii
    (rev (lstrip (rev (lstrip (list_ascii_of_string s))))).

(** [s.lower()] *)
Definition lower_char (c : ascii) : ascii :=
  if (((65 <=? code c) && (code c <=? 90))
      || ((192 <=? code c) && (code c <=? 222) && negb (code c =? 215)))%N
  then ascii_of_N (code c + 32) else c.

Definition py_lower (s : string) : string :=
  string_of_list_ascii (map lower_char (list_ascii_of_string s)).

(** [s[:n]] *)
Definition py_prefix (n : nat) (s : string) : string :=
  string_of_list_ascii (firstn n (list_ascii_of_string s)).

(** [sep.join(parts)] *)
Fixpoint py_join (sep : string) (parts : list string) : string :=
  match parts with
  | [] => EmptyString
  | [p] => p
  | p :: rest => p +:+ sep +:+ py_join sep rest
  end.

Definition digit_value (c : ascii) : option Z :=
  if ((48 <=? code c) && (code c <=? 57))%N then Some (Z.of_N (code c) - 48)
  else None.

(** The digits of a decimal literal, single underscores allowed between
    digits. *)
Fixpoint digits_value (after_digit : bool) (acc : Z) (s : list ascii) : option Z :=
  match s with
  | [] => if after_digit then Some acc else None
  | c :: rest =>
      if Ascii.eqb c "_" then
        if after_digit then digits_value false acc rest else None
      else
        match digit_value c with
        | Some d => digits_value true (10 * acc + d) rest
        | None => None
        end
  end.

(** The whitespace [int] skips around a literal (the separators U+001C to
    U+001F are not part of it). *)
Definition is_int_space (c : ascii) : bool :=
  (((9 <=? code c) && (code c <=? 13)) || (code c =? 32)
   || (code c =? 133) || (code c =? 160))%N.

Fixpoint lstrip_int (s : list ascii) : list ascii :=
  match s with
  | c :: rest => if is_int_space c then lstrip_int rest else s
  | [] => []
  end.

(** The number of digits of a literal, leading zeros included. *)
Definition digit_count (s : list ascii) : Z :=
  Z.of_nat (length (List.filter (fun c => bool_decide (is_Some (digit_value c))) s)).

(** The longest literal [int] converts ([sys.get_int_max_str_digits()],
    4300 unless it is reconfigured). *)
Definition MAX_STR_DIGITS : Z := 4300.

(** [int(s)] for a string: surrounding whitespace, an optional sign and a
    decimal literal of at most [MAX_STR_DIGITS] digits; anything else is a
    [ValueError]. *)
Definition py_int (s : string) : outcome Z :=
  let body := rev (lstrip_int (rev (lstrip_int (list_ascii_of_string s)))) in
  let signed :=
    match body with
    | c :: rest =>
        if Ascii.eqb c "-" then option_map Z.opp (digits_value false 0 rest)
        else if Ascii.eqb c "+" then digits_value false 0 rest
        else digits_value false 0 body
    | [] => None
    end in
  match signed with
  | Some z => if digit_count body <=? MAX_STR_DIGITS then Ok z else Raise ValueError
  | None => Raise ValueError
  end.

Definition hex_digit (n : N) : ascii :=
  if (n <? 10)%N then ascii_of_N (48 + n) else ascii_of_N (87 + n).

(** [c.isprintable()] below U+0100 *)
Definition is_printable (c : ascii) : bool :=
  (((32 <=? code c) && (code c <=? 126))
   || ((161 <=? code c) && negb (code c =? 173)))%N.

Definition repr_char (quote : ascii) (c : ascii) : list ascii :=
  if Ascii.eqb c quote || Ascii.eqb c "\" then ["\"%char; c]
  else if (code c =? 9)%N then ["\"%char; "t"%char]
  else if (code c =? 10)%N then ["\"%char; "n"%char]
  else if (code c =? 13)%N then ["\"%char; "r"%char]
  else if is_printable c then [c]
  else ["\"%char; "x"%char; hex_digit (code c / 16); hex_digit (code c mod 16)].

Definition dquote : ascii := ascii_of_N 34.

Definition has_char (q : ascii) (s : list ascii) : bool :=
  existsb (Ascii.eqb q) s.

(** [repr(s)] of a string *)
Definition repr_str (s : string) : string :=
  let cs := list_ascii_of_string s in
  let quote :=
    if has_char "'" cs && negb (has_char dquote cs) then dquote else "'"%char in
  string_of_list_ascii ([quote] ++ concat (map (repr_char quote) cs) ++ [quote]).

(** [repr(v)] *)
Fixpoint py_repr (v : json) : string :=
  match v with
  | JNull => "None"
  | JBool b => if b then "True" else "False"
  | JInt z => pretty z
  | JStr s => repr_str s
  | JArr l => "[" +:+ py_join ", " (map py_repr l) +:+ "]"
  | JObj kv =>
      "{" +:+ py_join ", "
                (map (fun p => repr_str (fst p) +:+ ": " +:+ py_repr (snd p)) kv)
          +:+ "}"
  end.

(** [str(v)], which is what an f-string puts in place of [{v}] *)
Definition py_str (v : json) : string :=
  match v with
  | JStr s => s
  | _ => py_repr v
  end.

(** The elements [for x in v] runs over. *)
Definition py_iter (v : json) : outcome (list json) :=
  match v with
  | JArr l => Ok l
  | JObj kv => Ok (map (fun p => JStr (fst p)) kv)
  | JStr s => Ok (map (fun c => JStr (String c EmptyString)) (list_ascii_of_string s))
  | _ => Raise TypeError
  end.

(** [v.strip()]: a method of strings only *)
Definition py_strip_method (v : json) : outcome string :=
  match v with
  | JStr s => Ok (py_strip s)
  | _ => Raise AttributeError
  end.

(** [v[:n]]: strings and lists can be sliced; a dict raises [TypeError]
    ([KeyError] from Python 3.12 on). *)
Definition py_slice_to (n : nat) (v : json) : outcome json :=
  match v with
  | JStr s => Ok (JStr (py_prefix n s))
  | JArr l => Ok (JArr (firstn n l))
  | _ => Raise TypeError
  end.

(** [a or b] *)
Definition py_or (a b : json) : json := if truthy a then a else b.

(** ** The world of the script *)

(** A file as [json.load] sees it.  [json.dump] writes a text that
    [json.load] reads back as the same value. *)
Inductive file : Type :=
| JsonText (j : json)        (* a JSON document *)
| JsonLines (l : list json)  (* one JSON document per line *)
| Garbled                    (* a text that is not JSON *)
| Undecodable.               (* bytes that are not a text in the encoding of [open] *)

(** The [print] statements of the script, one constructor each, with the
    values they interpolate. *)
Inductive message : Type :=
| RateLimitHit (retry_after : Z)
| ServerError (status_code wait attempt : Z)
| UnexpectedResponse (status_code : Z) (url : string)
| NetworkError (e : exn) (wait attempt : Z)
| FailedAfterRetries (url : string)
| CheckpointCorrupted (project_key : string)
| ScraperInitiated (project_key : string)
| TotalIssuesFound (project_key : string) (total : json)
| NoIssuesToScrape (project_key : string)
| ResumingFrom (start_checkpoint : json) (pages : nat)
| ErrorProcessingFuture (start_at : Z) (e : exn)
| Finished (project_key : string) (records : nat) (path : string).

Inductive event : Type :=
| Print (m : message)
| Sleep (seconds : Z)
| HttpGet (url : string) (params : json)
| FileWrite (path : string) (content : file)
| ProgressUpdate.

(** The files by path, what was printed, slept, requested and written so
    far (oldest first), and the list [results] of the running
    [scrape_project]. *)
Record world : Type := mkWorld {
  files : gmap string file;
  trace : list event;
  results : list json
}.

(** A statement: it runs in a world, returns or raises, and leaves a
    world. *)
Definition M (A : Type) : Type := world -> outcome A * world.

#[global] Instance M_ret : MRet M := fun A a w => (Ok a, w).

#[global] Instance M_bind : MBind M := fun A B k m w =>
  match m w with
  | (Ok a, w') => k a w'
  | (Raise e, w') => (Raise e, w')
  end.

#[global] Instance outcome_ret : MRet outcome := fun A a => Ok a.

#[global] Instance outcome_bind : MBind outcome := fun A B k m =>
  match m with
  | Ok a => k a
  | Raise e => Raise e
  end.

(** An expression that may raise, evaluated in a statement. *)
Definition lift {A} (o : outcome A) : M A := fun w => (o, w).

Definition raise {A} (e : exn) : M A := lift (Raise e).

Definition emit (ev : event) : M unit := fun w =>
  (Ok tt, mkWorld (files w) (trace w ++ [ev]) (results w)).

Definition print (m : message) : M unit := emit (Print m).

(** The longest sleep, in seconds, whose nanoseconds fit the 64-bit
    timestamp [time.sleep] converts its argument to. *)
Definition SLEEP_MAX : Z := 9223372036.

(** A length every platform sleeps for.  Between [SLEEP_SAFE] and
    [SLEEP_MAX] the operating system may refuse a sleep that ends beyond
    the range of its clock (Linux does, with [OSError], for a length
    within the uptime of the machine of [SLEEP_MAX]). *)
Definition SLEEP_SAFE : Z := 2147483647.

(** [time.sleep(seconds)] for an integer: the argument is converted to a
    timestamp first ([OverflowError] when it does not fit, whatever its
    sign), then a negative length is refused with [ValueError].  The model
    lets every other length sleep; what is proved about pauses is stated
    for lengths up to [SLEEP_SAFE]. *)
Definition time_sleep (seconds : Z) : M unit :=
  if (seconds <? - SLEEP_MAX) || (SLEEP_MAX <? seconds) then raise OverflowError
  else if seconds <? 0 then raise ValueError
  else emit (Sleep seconds).

(** [try: body  except <class> as e: handler e]; what [body] did before it
    raised stays done. *)
Definition try_except {A} (body : M A) (caught : exn -> bool)
    (handler : exn -> M A) : M A := fun w =>
  match body w with
  | (Raise e, w') => if caught e then handler e w' else (Raise e, w')
  | r => r
  end.

Definition is_RequestException (e : exn) : bool :=
  match e with RequestException _ => true | _ => false end.

Definition is_JSONDecodeError (e : exn) : bool :=
  match e with JSONDecodeError => true | _ => false end.

Definition is_Exception (e : exn) : bool := true.

(** [f.exists()] *)
Definition path_exists (f : string) : M bool := fun w =>
  (Ok (bool_decide (is_Some (files w !! f))), w).

(** [with open(f, "r") as fp: json.load(fp)].  [json.load] reads the whole
    file first: bytes that cannot be decoded raise [UnicodeDecodeError]
    (a [ValueError], not a [JSONDecodeError]) before anything is parsed. *)
Definition json_load (f : string) : M json := fun w =>
  match files w !! f with
  | Some (JsonText j) => (Ok j, w)
  | Some (JsonLines [j]) => (Ok j, w)
  | Some (JsonLines _) => (Raise JSONDecodeError, w)
  | Some Garbled => (Raise JSONDecodeError, w)
  | Some Undecodable => (Raise UnicodeDecodeError, w)
  | None => (Raise OSError, w)
  end.

(** [with open(f, "w") as fp: ...] leaving [content] in the file.  The
    file can be opened: its directory is there (the script makes [output]
    and [checkpoints]) and its name is one the file system takes. *)
Definition write_file (f : string) (content : file) : M unit := fun w =>
  (Ok tt, mkWorld (<[f := content]> (files w))
                  (trace w ++ [FileWrite f content]) (results w)).

Definition results_clear : M unit := fun w =>
  (Ok tt, mkWorld (files w) (trace w) []).

(** [results.append(r)] *)
Definition results_append (r : json) : M unit := fun w =>
  (Ok tt, mkWorld (files w) (trace w) (results w ++ [r])).

Definition results_get : M (list json) := fun w => (Ok (results w), w).

(** ** [safe_request] *)

(** What one [requests.get] comes back with: a response (status code, the
    Retry-After header if there is one, the body as [resp.json()] decodes
    it), or a [RequestException].  A response whose body is not JSON is
    not modelled. *)
Inductive attempt_result : Type :=
| Response (status_code : Z) (retry_after : option string) (body : json)
| Failure (msg : string).

(** The remote service: the outcome of the [attempt]-th request of a call
    [safe_request(url, params)]. *)
Definition network : Type := string -> json -> Z -> attempt_result.

(** A loop body either goes on to the next iteration or returns from the
    function. *)
Inductive control (A : Type) : Type :=
| Next
| Return (a : A).
Arguments Next {A}.
Arguments Return {A} a.

(** [for x in l: body] followed by [after], in a function that [body] may
    return from. *)
Fixpoint for_return {A} (l : list Z) (body : Z -> M (control A)) (after : M A)
    : M A :=
  match l with
  | [] => after
  | x :: rest =>
      c ← body x;
      match c with
      | Return a => mret a
      | Next => for_return rest body after
      end
  end.

(** The body of the retry loop, lines 46-65. *)
Definition safe_request_attempt (net : network) (url : string) (params : json)
    (attempt : Z) : M (control json) :=
  try_except
    (emit (HttpGet url params);;
     match net url params attempt with
     | Failure msg => raise (RequestException msg)
     | Response status_code header body =>
         if status_code =? 200 then mret (Return body)
         else if status_code =? 429 then
           retry_after ← lift (match header with
                               | Some s => py_int s
                               | None => Ok 60
                               end);
           print (RateLimitHit retry_after);;
           time_sleep retry_after;;
           mret Next
         else if (500 <=? status_code) && (status_code <? 600) then
           let wait := Z.min (RETRY_BACKOFF * attempt) 60 in
           print (ServerError status_code wait attempt);;
           time_sleep wait;;
           mret Next
         else
           print (UnexpectedResponse status_code url);;
           mret (Return JNull)
     end)
    is_RequestException
    (fun e =>
       let wait := Z.min (RETRY_BACKOFF * attempt) 60 in
       print (NetworkError e wait attempt);;
       time_sleep wait;;
       mret Next).

(** Lines 66-67: no attempt returned. *)
Definition retries_exhausted (url : string) : M json :=
  print (FailedAfterRetries url);;
  mret JNull.

Definition safe_request (net : network) (url : string) (params : json) : M json :=
  attempts ← lift (py_range 1 (MAX_RETRIES + 1) 1);
  for_return attempts (safe_request_attempt net url params)
    (retries_exhausted url).

(** ** Paths

    [Path(dir) / name] on POSIX, as the string [open] gets.  [pathlib]
    splits [name] at the slashes and drops the empty components and the
    [.] components ([..] stays); the components follow those of [dir],
    unless [name] starts with a slash: then [name] replaces [dir], with two
    leading slashes when it starts with exactly two.  A file is known by
    this string, as on a case-sensitive file system; the model does not
    resolve [..] or links. *)

Definition is_slash (c : ascii) : bool := Ascii.eqb c "/".

(** The text before the first slash, and the texts between the later
    ones. *)
Fixpoint split_slash (s : string) : string * list string :=
  match s with
  | EmptyString => (EmptyString, [])
  | String c rest =>
      let (x, xs) := split_slash rest in
      if is_slash c then (EmptyString, x :: xs) else (String c x, xs)
  end.

(** [s.split("/")] *)
Definition components (s : string) : list string :=
  let (x, xs) := split_slash s in x :: xs.

Definition kept_component (x : string) : bool :=
  negb (String.eqb x EmptyString) && negb (String.eqb x ".").

Definition path_parts (s : string) : list string :=
  List.filter kept_component (components s).

Definition path_root (s : string) : string :=
  match s with
  | String c1 rest =>
      if is_slash c1 then
        match rest with
        | String c2 EmptyString => if is_slash c2 then "//" else "/"
        | String c2 (String c3 _) =>
            if is_slash c2 && negb (is_slash c3) then "//" else "/"
        | EmptyString => "/"
        end
      else EmptyString
  | EmptyString => EmptyString
  end.

(** [str] of a path *)
Definition path_str (root : string) (parts : list string) : string :=
  match root, parts with
  | EmptyString, [] => "."
  | _, _ => root +:+ py_join "/" parts
  end.

(** [str(Path(dir) / name)] *)
Definition path_join (dir name : string) : string :=
  match path_root name with
  | EmptyString => path_str (path_root dir) (path_parts dir ++ path_parts name)
  | root => path_str root (path_parts name)
  end.

(** The components of a path written before its last one, each followed
    by its slash. *)
Fixpoint dir_prefix (parts : list string) : string :=
  match parts with
  | [] => EmptyString
  | p :: rest => p +:+ "/" +:+ dir_prefix rest
  end.

Definition no_slash (s : string) : bool :=
  forallb (fun c => negb (is_slash c)) (list_ascii_of_string s).

(** ** Checkpoints *)

(** [CHECKPOINT_DIR / f"{project_key}_checkpoint.json"] *)
Definition checkpoint_file (project_key : string) : string :=
  path_join CHECKPOINT_DIR (project_key +:+ "_checkpoint.json").

Definition load_checkpoint (project_key : string) : M json :=
  let f := checkpoint_file project_key in
  present ← path_exists f;
  if present : bool then
    try_except
      (content ← json_load f;
       lift (py_get content "last_startAt" (JInt 0)))
      is_JSONDecodeError
      (fun _ => print (CheckpointCorrupted project_key);; mret (JInt 0))
  else mret (JInt 0).

(** [json.dump] writes the offset as it is; the offsets of the script are
    page offsets (an integer of more than 4300 digits, which [json.dump]
    refuses to write, is not one). *)
Definition save_checkpoint (project_key : string) (start_at : Z) : M unit :=
  let f := checkpoint_file project_key in
  write_file f (JsonText (JObj [("last_startAt", JInt start_at)])).

(** ** Fetching *)

Definition get_total_issues (net : network) (project_key : string) : M json :=
  let params := JObj [("jql", JStr ("project=" +:+ project_key));
                      ("maxResults", JInt 1)] in
  data ← safe_request net BASE_URL params;
  if truthy data then lift (py_get data "total" (JInt 0)) else mret (JInt 0).

(** The [params] of [fetch_page] *)
Definition page_params (project_key : string) (start_at : Z) : json :=
  JObj [("jql", JStr ("project=" +:+ project_key));
        ("startAt", JInt start_at);
        ("maxResults", JInt MAX_RESULTS);
        ("expand", JStr "comments")].

Definition fetch_page (net : network) (project_key : string) (start_at : Z)
    : M (Z * json) :=
  let params := page_params project_key start_at in
  data ← safe_request net BASE_URL params;
  if negb (truthy data) then mret (start_at, JArr [])
  else
    issues ← lift (py_get data "issues" (JArr []));
    mret (start_at, issues).

(** ** [transform_issue] *)

Definition nl : string := String (ascii_of_N 10) EmptyString.

(** [[c.get("body", "").strip() for c in comments_data if c.get("body")]] *)
Fixpoint comment_bodies (comments_data : list json) : outcome (list string) :=
  match comments_data with
  | [] => Ok []
  | c :: rest =>
      cond ← py_get c "body" JNull;
      if truthy cond then
        body ← py_get c "body" (JStr EmptyString);
        stripped ← py_strip_method body;
        others ← comment_bodies rest;
        Ok (stripped :: others)
      else comment_bodies rest
  end.

Definition transform_issue (issue : json) : outcome json :=
  fields ← py_get issue "fields" (JObj []);
  key ← py_get issue "key" (JStr EmptyString);
  project ← py_get fields "project" (JObj []) ≫= (fun d => py_get d "key" (JStr EmptyString));
  summary ← py_get fields "summary" (JStr EmptyString);
  found ← py_get fields "description" JNull;
  let description := py_or found (JStr EmptyString) in
  status ← py_get fields "status" (JObj []) ≫= (fun d => py_get d "name" (JStr EmptyString));
  reporter ← py_get fields "reporter" (JObj [])
               ≫= (fun d => py_get d "displayName" (JStr EmptyString));
  has_assignee ← py_get fields "assignee" JNull;
  assignee ← (if truthy has_assignee
              then py_get fields "assignee" (JObj [])
                     ≫= (fun d => py_get d "displayName" (JStr "Unassigned"))
              else Ok (JStr "Unassigned"));
  priority ← py_get fields "priority" (JObj []) ≫= (fun d => py_get d "name" (JStr EmptyString));
  labels ← py_get fields "labels" (JArr []);
  created ← py_get fields "created" (JStr EmptyString);
  updated ← py_get fields "updated" (JStr EmptyString);
  comments_data ← py_get fields "comment" (JObj [])
                    ≫= (fun d => py_get d "comments" (JArr []));
  comments ← py_iter comments_data ≫= comment_bodies;
  let full_text :=
    py_str summary +:+ nl +:+ nl +:+ "Description:" +:+ nl +:+ py_str description
      +:+ nl +:+ nl +:+ "Comments:" +:+ nl +:+ py_join nl comments in
  head ← py_slice_to 400 description;
  let derived_tasks :=
    JObj [("summarization", JStr ("Summarize this issue: " +:+ full_text));
          ("classification",
            JStr ("Classify the issue '" +:+ py_str summary
                  +:+ "' into categories like 'Bug', 'Improvement', 'Task', or 'Feature'."));
          ("qna",
            JStr ("Q: What is the main problem described in issue " +:+ py_str key
                  +:+ "?" +:+ nl +:+ "A: " +:+ py_str head))] in
  stripped_description ← py_strip_method description;
  Ok (JObj [("issue_key", key);
            ("project", project);
            ("title", summary);
            ("status", status);
            ("reporter", reporter);
            ("assignee", assignee);
            ("priority", priority);
            ("labels", labels);
            ("created", created);
            ("updated", updated);
            ("description", JStr stripped_description);
            ("comments", JArr (map JStr comments));
            ("text", JStr (py_strip full_text));
            ("derived_tasks", derived_tasks)]).

(** ** [scrape_project] *)

Fixpoint for_each {A} (l : list A) (body : A -> M unit) : M unit :=
  match l with
  | [] => mret tt
  | x :: rest => body x;; for_each rest body
  end.

(** One turn of the loop over [as_completed(futures)], lines 216-229, for
    the future submitted for page [start_at].  The unit of work
    [fetch_page(project_key, start_at)] ran in a pool thread; it touches
    nothing but the network and the terminal, so the model runs it at the
    point where the loop takes its result. *)
Definition process_future (net : network) (project_key : string) (start_at : Z)
    : M unit :=
  try_except
    (result ← fetch_page net project_key start_at;
     let issues := snd result in
     if truthy issues then
       items ← lift (py_iter issues);
       for_each items (fun issue =>
         record ← lift (transform_issue issue);
         results_append record);;
       save_checkpoint project_key (start_at + MAX_RESULTS)
     else mret tt)
    is_Exception
    (fun e => print (ErrorProcessingFuture start_at e));;
  emit ProgressUpdate.

(** Lines 204-205: the checkpoint read at the start of a run and the
    pages planned from it. *)
Definition planned_pages (project_key : string) (total : json)
    : M (json * list Z) :=
  start_checkpoint ← load_checkpoint project_key;
  pages ← lift (start ← py_index start_checkpoint;
                stop ← py_index total;
                plan stop start MAX_RESULTS);
  mret (start_checkpoint, pages).

(** The two output files of a project,
    [OUTPUT_DIR / f"{project_key.lower()}_issues.json"] and its [.jsonl]
    sibling. *)
Definition json_file (project_key : string) : string :=
  path_join OUTPUT_DIR (py_lower project_key +:+ "_issues.json").

Definition jsonl_file (project_key : string) : string :=
  path_join OUTPUT_DIR (py_lower project_key +:+ "_issues.jsonl").

(** [as_completed] is the order in which the pool finishes the submitted
    pages: some rearrangement of [pages]. *)
Definition scrape_project (net : network) (as_completed : list Z -> list Z)
    (project_key : string) : M (list json) :=
  print (ScraperInitiated project_key);;
  total ← get_total_issues net project_key;
  print (TotalIssuesFound project_key total);;
  if py_eq_zero total then
    print (NoIssuesToScrape project_key);;
    mret []
  else
    planned ← planned_pages project_key total;
    let start_checkpoint := fst planned in
    let pages := snd planned in
    results_clear;;
    print (ResumingFrom start_checkpoint (length pages));;
    for_each (as_completed pages) (process_future net project_key);;
    results ← results_get;
    write_file (json_file project_key) (JsonText (JArr results));;
    print (Finished project_key (length results) (json_file project_key));;
    write_file (jsonl_file project_key) (JsonLines results);;
    print (Finished project_key (length results) (jsonl_file project_key));;
    mret results.

Definition main (net : network) (as_completed : list Z -> list Z) : M unit :=
  let projects := ["ACCUMULO"; "ACE"; "AMQCPP"]%string in
  for_each projects (fun project =>
    scrape_project net as_completed project;; mret tt).

(** ** Observing a run *)

Definition result_of {A} (m : M A) (w : world) : outcome A := fst (m w).

Definition world_after {A} (m : M A) (w : world) : world := snd (m w).

(** The world [w] after the events [evs] happened, files and [results]
    untouched. *)
Definition log (evs : list event) (w : world) : world :=
  mkWorld (files w) (trace w ++ evs) (results w).

(** What happened between the worlds [w] and [w']. *)
Definition events_since (w w' : world) : list event :=
  drop (length (trace w)) (trace w').

Definition sleeps (evs : list event) : list Z :=
  flat_map (fun ev => match ev with Sleep s => [s] | _ => [] end) evs.

Definition requests_made (evs : list event) : nat :=
  length (flat_map (fun ev => match ev with HttpGet u p => [(u, p)] | _ => [] end) evs).

Definition file_writes (evs : list event) : list (string * file) :=
  flat_map (fun ev => match ev with FileWrite f c => [(f, c)] | _ => [] end) evs.

(** An attempt after which [safe_request] pauses and goes on to the next
    one: a transport failure, a 5xx, or a 429 whose Retry-After header is
    absent or an integer [int] reads and [time.sleep] sleeps for, from 0
    to [SLEEP_SAFE]. *)
Definition usable_retry_after (header : option string) : bool :=
  match header with
  | None => true
  | Some h =>
      match py_int h with
      | Ok v => (0 <=? v) && (v <=? SLEEP_SAFE)
      | Raise _ => false
      end
  end.

Definition retried (r : attempt_result) : bool :=
  match r with
  | Failure _ => true
  | Response status_code header _ =>
      ((status_code =? 429) && usable_retry_after header)
      || ((500 <=? status_code) && (status_code <? 600))
  end.

(** The content [save_checkpoint] leaves in a checkpoint file. *)
Definition checkpoint_content (offset : Z) : file :=
  JsonText (JObj [("last_startAt", JInt offset)]).




(** What the page fetch of a unit returns; it does not depend on the world
    it runs in. *)
Definition page_result (net : network) (project_key : string) (start_at : Z)
    : outcome (Z * json) :=
  result_of (fetch_page net project_key start_at) (mkWorld ∅ [] []).

Definition transforms (issue : json) : bool :=
  match transform_issue issue with Ok _ => true | Raise _ => false end.

(** The records of a page can all be transformed. *)
Definition all_transform (issues : json) : bool :=
  match py_iter issues with
  | Ok items => forallb transforms items
  | Raise _ => false
  end.

(** A statement that only talks to the network and the terminal: what it
    returns and what happens do not depend on the world it runs in, and it
    leaves files and [results] alone. *)
Definition io_only {A} (m : M A) : Prop :=
  exists r evs, file_writes evs = [] /\ forall w, m w = (r, log evs w).

(** The pause of a retried attempt. *)
Definition pause_after (attempt : Z) (r : attempt_result) : Z :=
  match r with
  | Failure _ => Z.min (RETRY_BACKOFF * attempt) 60
  | Response status_code header _ =>
      if status_code =? 429 then
        match header with
        | Some h => match py_int h with Ok v => v | Raise _ => 0 end
        | None => 60
        end
      else Z.min (RETRY_BACKOFF * attempt) 60
  end.

(** The unit of work for page [start_at] gets as far as the checkpoint
    write: the fetch returns, the page is not empty and all its records
    are transformed. *)
Definition unit_saves (net : network) (project_key : string) (start_at : Z) : bool :=
  match page_result net project_key start_at with
  | Ok (_, issues) => truthy issues && all_transform issues
  | Raise _ => false
  end.

(** ** Sample inputs *)

Definition empty_world : world := mkWorld ∅ [] [].

(** A Jira issue with its key and fields. *)
Definition sample_issue (key : string) (fields : list (string * json)) : json :=
  JObj [("key", JStr key); ("fields", JObj fields)].

(** A service holding 120 issues that answers every request at once: the
    total for the counting request, two issues per page otherwise. *)
Definition healthy_service : network := fun url params attempt =>
  match py_get params "startAt" JNull with
  | Ok JNull => Response 200 None (JObj [("total", JInt 120)])
  | _ =>
      Response 200 None
        (JObj [("issues",
                JArr [sample_issue "ACE-1" [("summary", JStr "first")];
                      sample_issue "ACE-2" [("summary", JStr "second")]])])
  end.

(** A service that is down, times out, limits the rate twice and then
    answers 404. *)
Definition flaky_service : network := fun url params attempt =>
  if attempt =? 1 then Response 503 None JNull
  else if attempt =? 2 then Failure "timed out"
  else if attempt =? 3 then Response 429 (Some "7"%string) JNull
  else if attempt =? 4 then Response 429 None JNull
  else Response 404 None JNull.

(** A service that has nothing on any page. *)
Definition empty_service : network := fun url params attempt =>
  Response 200 None (JObj [("total", JInt 0); ("issues", JArr [])]).

(** A service whose only issue has no reporter. *)
Definition anonymous_service : network := fun url params attempt =>
  Response 200 None
    (JObj [("total", JInt 1);
           ("issues", JArr [sample_issue "ACE-7" [("reporter", JNull)]])]).

(** A world in which the checkpoint of ACE holds the JSON document [[]]. *)
Definition world_with_list_checkpoint : world :=
  mkWorld {[ checkpoint_file "ACE" := JsonText (JArr []) ]} [] [].

(** ** Further observations *)

(** The turns of the progress bar. *)
Definition progress_updates (evs : list event) : nat :=
  length (flat_map (fun ev => match ev with ProgressUpdate => [tt] | _ => [] end) evs).

(** A 429 that names a Retry-After which is not usable: the one answer
    on which an attempt can raise. *)
Definition bad_retry_after (r : attempt_result) : bool :=
  match r with
  | Response status_code (Some h) _ =>
      (status_code =? 429) && negb (usable_retry_after (Some h))
  | _ => false
  end.

(** A 5xx answer or a transport failure. *)
Definition server_trouble (r : attempt_result) : bool :=
  match r with
  | Failure _ => true
  | Response status_code _ _ => (500 <=? status_code) && (status_code <? 600)
  end.

(** What a Retry-After header makes [safe_request] raise: the
    [ValueError] of [int] when it is not an integer literal, the
    [OverflowError] of [time.sleep] when the integer does not fit a
    timestamp, the [ValueError] of [time.sleep] when it is negative. *)
Definition retry_after_error (header : string) : option exn :=
  match py_int header with
  | Ok v =>
      if (v <? - SLEEP_MAX) || (SLEEP_MAX <? v) then Some OverflowError
      else if v <? 0 then Some ValueError
      else None
  | Raise e => Some e
  end.

(** The [params] of [get_total_issues] *)
Definition count_params (project_key : string) : json :=
  JObj [("jql", JStr ("project=" +:+ project_key)); ("maxResults", JInt 1)].

(** A checkpoint file that is a text [json.load] cannot parse. *)
Definition not_json (f : file) : bool :=
  match f with
  | JsonText _ => false
  | JsonLines [_] => false
  | JsonLines _ => true
  | Garbled => true
  | Undecodable => false
  end.

(** The bytes of a string in UTF-8 (code points below U+0100). *)
Definition utf8_length (s : string) : Z :=
  fold_right (fun c n => (if (code c <? 128)%N then 1 else 2) + n) 0
    (list_ascii_of_string s).

(** A project key that is a file name of its own: no slash, so that
    [pathlib] keeps it as one component, no NUL, and short enough for the
    name of its checkpoint file to fit the 255 bytes of a file name. *)
Definition plain_name (s : string) : bool :=
  forallb (fun c => negb (is_slash c) && negb (code c =? 0)%N)
    (list_ascii_of_string s)
  && (utf8_length s <=? 239).

(** A service that limits the rate and asks to wait a negative time. *)
Definition negative_service : network := fun url params attempt =>
  Response 429 (Some "-5"%string) JNull.

(** A service that limits the rate and asks to wait longer than a
    timestamp can hold. *)
Definition patient_service : network := fun url params attempt =>
  Response 429 (Some "99999999999999999999"%string) JNull.

(** A world in which the checkpoint of ACE is not a text. *)
Definition world_with_undecodable_checkpoint : world :=
  mkWorld {[ checkpoint_file "ACE" := Undecodable ]} [] [].


(** A service that is down. *)
Definition down_service : network := fun url params attempt =>
  Response 503 None JNull.

(** A service that limits the rate and names a date to come back at. *)
Definition dated_service : network := fun url params attempt =>
  Response 429 (Some "Wed, 21 Oct 2015 07:28:00 GMT"%string) JNull.

(** A service that does not know the project. *)
Definition unknown_project_service : network := fun url params attempt =>
  Response 404 None JNull.

(** A world in which the checkpoint of ACE is not JSON. *)
Definition world_with_garbled_checkpoint : world :=
  mkWorld {[ checkpoint_file "ACE" := Garbled ]} [] [].

(** A world in which the checkpoint of ACE holds a string offset. *)
Definition world_with_string_checkpoint : world :=
  mkWorld {[ checkpoint_file "ACE"
             := JsonText (JObj [("last_startAt", JStr "100")]) ]} [] [].

(** A world in which the checkpoint of ACCUMULO holds the JSON document
    [[]]. *)
Definition world_with_accumulo_list_checkpoint : world :=
  mkWorld {[ checkpoint_file "ACCUMULO" := JsonText (JArr []) ]} [] [].

(** The keys of the record [transform_issue] returns, in order. *)
Definition record_keys : list string :=
  ["issue_key"; "project"; "title"; "status"; "reporter"; "assignee";
   "priority"; "labels"; "created"; "updated"; "description"; "comments";
   "text"; "derived_tasks"]%string.

Definition task_keys : list string :=
  ["summarization"; "classification"; "qna"]%string.

Definition is_obj (v : json) : bool :=
  match v with JObj _ => true | _ => false end.

Definition is_str (v : json) : bool :=
  match v with JStr _ => true | _ => false end.

(** [d[k]] if the key is there, [default] otherwise *)
Definition get_or (kv : list (string * json)) (k : string) (default : json) : json :=
  match assoc_get kv k with
  | Some v => v
  | None => default
  end.

(** A comment [transform_issue] can read: an object whose body, if it is
    there and not falsy, is a string. *)
Definition readable_comment (c : json) : bool :=
  match c with
  | JObj kv =>
      let body := get_or kv "body" JNull in
      negb (truthy body) || is_str body
  | _ => false
  end.

(** An issue [transform_issue] can read. *)
Definition readable_issue (issue : json) : bool :=
  match issue with
  | JObj top =>
      match get_or top "fields" (JObj []) with
      | JObj fields =>
          is_obj (get_or fields "project" (JObj []))
          && is_obj (get_or fields "status" (JObj []))
          && is_obj (get_or fields "reporter" (JObj []))
          && (negb (truthy (get_or fields "assignee" JNull))
              || is_obj (get_or fields "assignee" JNull))
          && is_obj (get_or fields "priority" (JObj []))
          && match get_or fields "comment" (JObj []) with
             | JObj comment =>
                 match py_iter (get_or comment "comments" (JArr [])) with
                 | Ok items => forallb readable_comment items
                 | Raise _ => false
                 end
             | _ => false
             end
          && (negb (truthy (get_or fields "description" JNull))
              || is_str (get_or fields "description" JNull))
      | _ => false
      end
  | _ => false
  end.

(** The bodies [transform_issue] keeps: those that are not falsy,
    stripped. *)
Definition kept_bodies (comments_data : list json) : list string :=
  flat_map (fun c =>
              match c with
              | JObj kv =>
                  match get_or kv "body" JNull with
                  | JStr s => if String.eqb s EmptyString then [] else [py_strip s]
                  | _ => []
                  end
              | _ => []
              end) comments_data.

(** The records of a page that get appended to [results]: the transformed
    issues, up to the first one [transform_issue] raises on. *)
Fixpoint transformed_prefix (items : list json) : list json :=
  match items with
  | [] => []
  | issue :: rest =>
      match transform_issue issue with
      | Ok record => record :: transformed_prefix rest
      | Raise _ => []
      end
  end.

(** What the unit of work for page [start_at] adds to [results]. *)
Definition unit_records (net : network) (project_key : string) (start_at : Z)
    : list json :=
  match page_result net project_key start_at with
  | Ok (_, issues) =>
      if truthy issues then
        match py_iter issues with
        | Ok items => transformed_prefix items
        | Raise _ => []
        end
      else []
  | Raise _ => []
  end.

(** A service with two pages, the first of which is refused. *)
Definition half_service : network := fun url params attempt =>
  match py_get params "startAt" JNull with
  | Ok JNull => Response 200 None (JObj [("total", JInt 100)])
  | Ok (JInt 0) => Response 403 None JNull
  | _ =>
      Response 200 None
        (JObj [("issues", JArr [sample_issue "ACE-51" [("summary", JStr "late")]])])
  end.

(** A world in which ACE was fetched to the end before. *)
Definition finished_world : world :=
  mkWorld {[ checkpoint_file "ACE" := checkpoint_content 150;
             json_file "ACE" := JsonText (JArr [JStr "old records"]) ]} [] [].

(** ** The planner *)

Section Planner.

Variable page_size : Z.
Hypothesis page_size_positive : 0 < page_size.

Lemma range_up_length fuel cur stop :
  (Z.to_nat (stop - cur) <= fuel)%nat ->
  Z.of_nat (length (range_up fuel cur stop page_size))
  = ceil_div (Z.max 0 (stop - cur)) page_size.
Proof.
  revert cur.
  induction fuel as [|fuel IH]; intros cur Hfuel; simpl.
  - unfold ceil_div. replace (Z.max 0 (stop - cur)) with 0 by lia.
    symmetry. apply Z.div_small. lia.
  - destruct (Z.ltb_spec cur stop) as [Hlt|Hge].
    + cbn [length]. rewrite Nat2Z.inj_succ, IH by lia.
      unfold ceil_div.
      destruct (Z_lt_le_dec (stop - (cur + page_size)) 0) as [Hlast|Hmore].
      * replace (Z.max 0 (stop - (cur + page_size))) with 0 by lia.
        replace (Z.max 0 (stop - cur)) with (stop - cur) by lia.
        rewrite (Z.div_small (0 + page_size - 1)) by lia.
        symmetry.
        replace (stop - cur + page_size - 1)
          with ((stop - cur - 1) + 1 * page_size) by lia.
        rewrite Z.div_add by lia. rewrite Z.div_small by lia. lia.
      * replace (Z.max 0 (stop - (cur + page_size)))
          with (stop - cur - page_size) by lia.
        replace (Z.max 0 (stop - cur)) with (stop - cur) by lia.
        replace (stop - cur + page_size - 1)
          with ((stop - cur - page_size + page_size - 1) + 1 * page_size) by lia.
        rewrite Z.div_add by lia. lia.
    + unfold ceil_div. replace (Z.max 0 (stop - cur)) with 0 by lia.
      simpl. symmetry. apply Z.div_small. lia.
Qed.

Lemma range_up_In fuel cur stop x :
  (Z.to_nat (stop - cur) <= fuel)%nat ->
  In x (range_up fuel cur stop page_size)
  <-> (exists k, 0 <= k /\ x = cur + k * page_size /\ x < stop).
Proof.
  revert cur.
  induction fuel as [|fuel IH]; intros cur Hfuel; simpl.
  - split; [tauto|]. intros (k & Hk & -> & Hlt). nia.
  - destruct (Z.ltb_spec cur stop) as [Hlt|Hge].
    + simpl. rewrite IH by lia. split.
      * intros [<-|(k & Hk & -> & Hx)].
        -- exists 0. lia.
        -- exists (k + 1). lia.
      * intros (k & Hk & -> & Hx).
        destruct (Z.eq_dec k 0) as [->|Hnz]; [left; lia|].
        right. exists (k - 1). lia.
    + split; [simpl; tauto|]. intros (k & Hk & -> & Hlt). nia.
Qed.

Lemma range_up_lower fuel cur stop x :
  In x (range_up fuel cur stop page_size) -> cur <= x.
Proof.
  revert cur.
  induction fuel as [|fuel IH]; intros cur; simpl; [tauto|].
  destruct (cur <? stop); simpl; [|tauto].
  intros [<-|Hin]; [lia|]. apply IH in Hin. lia.
Qed.

Lemma range_up_sorted fuel cur stop :
  StronglySorted Z.lt (range_up fuel cur stop page_size).
Proof.
  revert cur.
  induction fuel as [|fuel IH]; intros cur; simpl; [constructor|].
  destruct (cur <? stop); [|constructor].
  constructor; [apply IH|].
  apply List.Forall_forall. intros x Hx.
  apply range_up_lower in Hx; lia.
Qed.

Lemma range_up_head fuel cur stop :
  cur < stop -> (0 < fuel)%nat ->
  hd_error (range_up fuel cur stop page_size) = Some cur.
Proof.
  intros Hlt Hfuel. destruct fuel as [|fuel]; [lia|]. simpl.
  destruct (Z.ltb_spec cur stop); [reflexivity|lia].
Qed.

(** The last planned page is less than a page away from the total. *)
Lemma range_up_last fuel cur stop o :
  (Z.to_nat (stop - cur) <= fuel)%nat ->
  last (range_up fuel cur stop page_size) = Some o ->
  stop <= o + page_size.
Proof.
  revert cur.
  induction fuel as [|fuel IH]; intros cur Hfuel; cbn [range_up]; [discriminate|].
  destruct (Z.ltb_spec cur stop) as [Hlt|Hge]; [|discriminate].
  rewrite last_cons.
  destruct (last (range_up fuel (cur + page_size) stop page_size)) as [y|] eqn:Hrest.
  - intros [= ->]. apply (IH (cur + page_size)); [lia|exact Hrest].
  - intros [= <-]. destruct fuel as [|fuel]; [lia|].
    cbn [range_up] in Hrest.
    destruct (Z.ltb_spec (cur + page_size) stop) as [Hlt'|Hge']; [|lia].
    rewrite last_cons in Hrest.
    destruct (last (range_up fuel (cur + page_size + page_size) stop page_size));
      discriminate.
Qed.

(** With a positive page size the plan counts up from the resume
    offset. *)
Lemma plan_positive total_count resume_offset :
  plan total_count resume_offset page_size
  = Ok (range_up (Z.to_nat (total_count - resume_offset))
          resume_offset total_count page_size).
Proof.
  unfold plan, py_range.
  destruct (Z.eqb_spec page_size 0); [lia|].
  destruct (Z.ltb_spec 0 page_size); [reflexivity|lia].
Qed.

(** [ceil_div] is the ceiling of the quotient. *)
Lemma ceil_div_spec x :
  (ceil_div x page_size - 1) * page_size < x <= ceil_div x page_size * page_size.
Proof.
  unfold ceil_div.
  pose proof (Z.div_mod (x + page_size - 1) page_size ltac:(lia)) as Hdm.
  pose proof (Z.mod_pos_bound (x + page_size - 1) page_size page_size_positive) as Hb.
  nia.
Qed.

(** C3. For every total count and resume offset (both non-negative) and
    every positive page size, the planner returns exactly
    ceil(max(0, total_count - resume_offset) / page_size) offsets, in
    strictly ascending order, and the first one is the resume offset when
    it is below the total count. *)
Theorem plan_shape total_count resume_offset :
  0 <= total_count -> 0 <= resume_offset ->
  exists offsets,
    plan total_count resume_offset page_size = Ok offsets
    /\ Z.of_nat (length offsets)
       = ceil_div (Z.max 0 (total_count - resume_offset)) page_size
    /\ StronglySorted Z.lt offsets
    /\ (resume_offset < total_count -> hd_error offsets = Some resume_offset).
Proof.
  intros _ _. eexists. split; [apply plan_positive|].
  split; [|split].
  - apply range_up_length. lia.
  - apply range_up_sorted.
  - intros Hlt. apply range_up_head; [exact Hlt|lia].
Qed.

(** C4, amended. For every total count, resume offset and positive page
    size the plan lists, in ascending order, exactly the offsets
    resume_offset + k * page_size (k = 0, 1, ...) below the total count;
    when the resume offset is a multiple of the page size these are exactly
    the multiples of the page size in [resume_offset, total_count); the
    plan is empty whenever resume_offset >= total_count. *)
Theorem plan_membership total_count resume_offset :
  exists offsets,
    plan total_count resume_offset page_size = Ok offsets
    /\ StronglySorted Z.lt offsets
    /\ (forall x, In x offsets
                  <-> exists k, 0 <= k /\ x = resume_offset + k * page_size
                                /\ x < total_count)
    /\ ((page_size | resume_offset) ->
        forall x, In x offsets
                  <-> (resume_offset <= x < total_count /\ (page_size | x)))
    /\ (total_count <= resume_offset -> offsets = []).
Proof.
  eexists. split; [apply plan_positive|].
  split; [apply range_up_sorted|].
  split; [intros x; apply range_up_In; lia|].
  split.
  - intros [r Hr] x. rewrite range_up_In by lia. split.
    + intros (k & Hk & -> & Hlt). split; [nia|]. exists (r + k). lia.
    + intros [[Hlo Hhi] [q Hq]]. exists (q - r). split; [nia|]. split; [lia|exact Hhi].
  - intros Hge. replace (Z.to_nat (total_count - resume_offset)) with O by lia.
    reflexivity.
Qed.

End Planner.

Lemma plan_shape_witness :
  exists offsets,
    plan 120 0 50 = Ok offsets
    /\ Z.of_nat (length offsets) = ceil_div (Z.max 0 (120 - 0)) 50
    /\ StronglySorted Z.lt offsets
    /\ (0 < 120 -> hd_error offsets = Some 0).
Proof. apply (plan_shape 50); lia. Defined.

(** C4, as stated, fails: resuming at offset 7 with 120 records and pages
    of 50, the plan is 7, 57, 107, none of them a multiple of 50, while the
    multiples 50 and 100 of the interval are left out. *)
Lemma plan_membership_counterexample :
  ~ (exists offsets,
       plan 120 7 50 = Ok offsets
       /\ forall x, In x offsets <-> (7 <= x < 120 /\ (50 | x))).
Proof.
  intros (offsets & Hplan & Hmem).
  vm_compute in Hplan. injection Hplan as <-.
  assert (Hin : In 50 [7; 57; 107]).
  { apply Hmem. split; [lia|]. exists 1. lia. }
  simpl in Hin. lia.
Qed.

Lemma plan_membership_witness :
  exists offsets,
    plan 120 50 50 = Ok offsets
    /\ StronglySorted Z.lt offsets
    /\ (forall x, In x offsets
                  <-> exists k, 0 <= k /\ x = 50 + k * 50 /\ x < 120)
    /\ ((50 | 50) ->
        forall x, In x offsets <-> (50 <= x < 120 /\ (50 | x)))
    /\ (120 <= 50 -> offsets = []).
Proof. apply (plan_membership 50). lia. Defined.

Lemma plan_past_total total resume :
  total <= resume -> plan total resume MAX_RESULTS = Ok [].
Proof.
  intros Hge. rewrite plan_positive by (unfold MAX_RESULTS; lia).
  replace (Z.to_nat (total - resume)) with O by lia. reflexivity.
Qed.

(** ** The checkpoint store *)

Lemma string_app_length (s t : string) :
  String.length (s +:+ t) = (String.length s + String.length t)%nat.
Proof. induction s as [|c s IH]; simpl; [reflexivity|]. now rewrite IH. Qed.

Lemma string_app_inj_l (s t u : string) : s +:+ t = s +:+ u -> t = u.
Proof. induction s as [|c s IH]; simpl; intros H; [exact H|]. injection H as H. auto. Qed.

Lemma string_app_inj_r (s t u : string) : s +:+ u = t +:+ u -> s = t.
Proof.
  revert t. induction s as [|c s IH]; intros [|d t] H; simpl in H.
  - reflexivity.
  - apply (f_equal String.length) in H.
    simpl in H. rewrite !string_app_length in H. simpl in H. lia.
  - apply (f_equal String.length) in H.
    simpl in H. rewrite !string_app_length in H. simpl in H. lia.
  - injection H as -> H. f_equal. auto.
Qed.

Lemma string_app_assoc (s t u : string) : (s +:+ t) +:+ u = s +:+ (t +:+ u).
Proof.
  induction s as [|c s IH]; [reflexivity|].
  exact (f_equal (String c) IH).
Qed.

Lemma string_app_cons c (s t : string) : String c s +:+ t = String c (s +:+ t).
Proof. reflexivity. Qed.

Lemma string_app_nil (t : string) : EmptyString +:+ t = t.
Proof. reflexivity. Qed.

(** Two texts that end in different words of the same length differ. *)
Lemma string_app_suffix (s t u v : string) :
  String.length u = String.length v -> s +:+ u = t +:+ v -> u = v.
Proof.
  revert t. induction s as [|c s IH]; intros [|d t] Hlen H.
  - exact H.
  - apply (f_equal String.length) in H.
    rewrite !string_app_length in H. cbn [String.length] in H. lia.
  - apply (f_equal String.length) in H.
    rewrite !string_app_length in H. cbn [String.length] in H. lia.
  - change (String c (s +:+ u) = String d (t +:+ v)) in H.
    injection H as _ H. eapply IH; eassumption.
Qed.

(** *** Paths *)

Lemma components_cons c rest :
  components (String c rest)
  = if is_slash c then EmptyString :: components rest
    else match components rest with
         | x :: xs => String c x :: xs
         | [] => []
         end.
Proof.
  unfold components. cbn [split_slash].
  destruct (split_slash rest) as [x xs]. destruct (is_slash c); reflexivity.
Qed.

Lemma split_slash_no_slash s : no_slash s = true -> split_slash s = (s, []).
Proof.
  unfold no_slash. induction s as [|c s IH]; cbn; [reflexivity|].
  intros H. apply andb_true_iff in H as [Hc Hs].
  rewrite (IH Hs). apply negb_true_iff in Hc. rewrite Hc. reflexivity.
Qed.

Lemma no_slash_app s t :
  no_slash s = true -> no_slash t = true -> no_slash (s +:+ t) = true.
Proof.
  unfold no_slash. induction s as [|c s IH]; [auto|].
  rewrite string_app_cons. cbn.
  intros H Ht. apply andb_true_iff in H as [Hc Hs].
  rewrite Hc. cbn. auto.
Qed.

(** Text added after a path, with no slash in it, goes to the last
    component. *)
Lemma components_app p :
  exists l0 t,
    components p = l0 ++ [t]
    /\ forall suf, no_slash suf = true ->
         components (p +:+ suf) = l0 ++ [t +:+ suf].
Proof.
  induction p as [|c p (l0 & t & Hp & Happ)].
  - exists [], EmptyString. split; [reflexivity|].
    intros suf Hsuf. unfold components.
    rewrite string_app_nil, split_slash_no_slash by exact Hsuf. reflexivity.
  - destruct (is_slash c) eqn:Hc.
    + exists (EmptyString :: l0), t. split.
      * rewrite components_cons, Hc, Hp. reflexivity.
      * intros suf Hsuf.
        rewrite string_app_cons, components_cons, Hc, Happ by exact Hsuf.
        reflexivity.
    + destruct l0 as [|x l0].
      * exists [], (String c t). split.
        -- rewrite components_cons, Hc, Hp. reflexivity.
        -- intros suf Hsuf.
           rewrite string_app_cons, components_cons, Hc, Happ by exact Hsuf.
           reflexivity.
      * exists (String c x :: l0), t. split.
        -- rewrite components_cons, Hc, Hp. reflexivity.
        -- intros suf Hsuf.
           rewrite string_app_cons, components_cons, Hc, Happ by exact Hsuf.
           reflexivity.
Qed.

Lemma path_root_app p c suf :
  is_slash c = false -> path_root (p +:+ String c suf) = path_root p.
Proof.
  intros Hc. destruct p as [|c1 [|c2 [|c3 p]]];
    rewrite ?string_app_cons, ?string_app_nil; cbn.
  - rewrite Hc. reflexivity.
  - destruct (is_slash c1); [|reflexivity].
    destruct suf; rewrite ?Hc; reflexivity.
  - destruct (is_slash c1); [|reflexivity].
    rewrite Hc. destruct (is_slash c2); reflexivity.
  - reflexivity.
Qed.

Lemma kept_component_suffix t suf :
  (2 <= String.length suf)%nat -> kept_component (t +:+ suf) = true.
Proof.
  intros Hlen. unfold kept_component.
  destruct (String.eqb_spec (t +:+ suf) EmptyString) as [H|_].
  { apply (f_equal String.length) in H. rewrite string_app_length in H.
    cbn in H. lia. }
  destruct (String.eqb_spec (t +:+ suf) ".") as [H|_]; [|reflexivity].
  apply (f_equal String.length) in H. rewrite string_app_length in H.
  cbn in H. lia.
Qed.

Lemma py_join_snoc parts u : py_join "/" (parts ++ [u]) = dir_prefix parts +:+ u.
Proof.
  induction parts as [|p parts IH]; [reflexivity|].
  cbn [app dir_prefix]. rewrite !string_app_assoc, <- IH.
  destruct parts; reflexivity.
Qed.

Lemma path_str_snoc root parts u :
  path_str root (parts ++ [u]) = root +:+ dir_prefix parts +:+ u.
Proof.
  rewrite <- py_join_snoc. unfold path_str.
  destruct root; [|reflexivity].
  destruct (parts ++ [u]) eqn:H; [|reflexivity].
  symmetry in H. now apply app_cons_not_nil in H.
Qed.

(** A file name made of a key and an ending is the ending after a text
    that depends on the key only. *)
Lemma path_join_stem dir p :
  exists stem, forall suf,
    no_slash suf = true -> (2 <= String.length suf)%nat ->
    path_join dir (p +:+ suf) = stem +:+ suf.
Proof.
  destruct (components_app p) as (l0 & t & _ & Happ).
  exists (match path_root p with
          | EmptyString =>
              path_root dir
              +:+ dir_prefix (path_parts dir ++ List.filter kept_component l0) +:+ t
          | root => root +:+ dir_prefix (List.filter kept_component l0) +:+ t
          end).
  intros suf Hsuf Hlen.
  assert (Hparts : path_parts (p +:+ suf)
                   = List.filter kept_component l0 ++ [t +:+ suf]).
  { unfold path_parts. rewrite Happ by exact Hsuf.
    rewrite List.filter_app. cbn [List.filter].
    rewrite kept_component_suffix by exact Hlen. reflexivity. }
  assert (Hroot : path_root (p +:+ suf) = path_root p).
  { destruct suf as [|c suf]; [cbn in Hlen; lia|].
    apply path_root_app. cbn in Hsuf.
    apply andb_true_iff in Hsuf as [Hc _]. now apply negb_true_iff in Hc. }
  unfold path_join. rewrite Hroot, Hparts.
  destruct (path_root p).
  - rewrite app_assoc, path_str_snoc, !string_app_assoc. reflexivity.
  - rewrite path_str_snoc, !string_app_assoc. reflexivity.
Qed.

(** The path of a key without a slash is the directory, a slash and the
    file name. *)
Lemma path_join_plain dir name :
  path_root dir = EmptyString -> path_parts dir = [dir] ->
  no_slash name = true -> (2 <= String.length name)%nat ->
  path_join dir name = dir +:+ "/" +:+ name.
Proof.
  intros Hroot Hdir Hname Hlen. unfold path_join.
  assert (path_root name = EmptyString) as ->.
  { destruct name as [|c name]; [reflexivity|]. cbn in Hname.
    apply andb_true_iff in Hname as [Hc _]. apply negb_true_iff in Hc.
    cbn. rewrite Hc. reflexivity. }
  assert (path_parts name = [name]) as ->.
  { unfold path_parts, components.
    rewrite split_slash_no_slash by exact Hname. cbn [List.filter].
    pose proof (kept_component_suffix EmptyString name Hlen) as Hk.
    rewrite string_app_nil in Hk. rewrite Hk. reflexivity. }
  rewrite Hroot, Hdir. reflexivity.
Qed.

Lemma plain_name_no_slash c : plain_name c = true -> no_slash c = true.
Proof.
  unfold plain_name, no_slash. intros H. apply andb_true_iff in H as [H _].
  rewrite forallb_forall in *. intros x Hx.
  specialize (H x Hx). now apply andb_true_iff in H as [H _].
Qed.

Lemma checkpoint_file_plain c :
  no_slash c = true ->
  checkpoint_file c = CHECKPOINT_DIR +:+ "/" +:+ c +:+ "_checkpoint.json".
Proof.
  intros Hc. unfold checkpoint_file. apply path_join_plain.
  - reflexivity.
  - reflexivity.
  - apply no_slash_app; [exact Hc|reflexivity].
  - rewrite string_app_length. cbn. lia.
Qed.

(** Distinct collections whose keys are file names have distinct
    checkpoint files. *)
Lemma checkpoint_file_inj c c' :
  no_slash c = true -> no_slash c' = true ->
  checkpoint_file c = checkpoint_file c' -> c = c'.
Proof.
  intros Hc Hc' H. rewrite !checkpoint_file_plain in H by assumption.
  apply string_app_inj_l in H. apply string_app_inj_l in H.
  apply string_app_inj_r in H. exact H.
Qed.

(** The files of a run are three: no output file is a checkpoint file,
    and the two output files of a project differ. *)
Lemma json_file_not_checkpoint project_key c :
  json_file project_key <> checkpoint_file c.
Proof.
  unfold json_file, checkpoint_file.
  destruct (path_join_stem OUTPUT_DIR (py_lower project_key)) as [s1 H1].
  destruct (path_join_stem CHECKPOINT_DIR c) as [s2 H2].
  rewrite H1, H2 by (try reflexivity; cbn; lia). intros H.
  change (s1 +:+ ("_issue" +:+ "s.json") = s2 +:+ ("_checkpoin" +:+ "t.json")) in H.
  rewrite <- !string_app_assoc in H.
  apply string_app_suffix in H; [discriminate H|reflexivity].
Qed.

Lemma jsonl_file_not_checkpoint project_key c :
  jsonl_file project_key <> checkpoint_file c.
Proof.
  unfold jsonl_file, checkpoint_file.
  destruct (path_join_stem OUTPUT_DIR (py_lower project_key)) as [s1 H1].
  destruct (path_join_stem CHECKPOINT_DIR c) as [s2 H2].
  rewrite H1, H2 by (try reflexivity; cbn; lia). intros H.
  change (s1 +:+ ("_issues.json" +:+ "l") = s2 +:+ ("_checkpoint.jso" +:+ "n")) in H.
  rewrite <- !string_app_assoc in H.
  apply string_app_suffix in H; [discriminate H|reflexivity].
Qed.

Lemma outputs_differ project_key : json_file project_key <> jsonl_file project_key.
Proof.
  unfold json_file, jsonl_file.
  destruct (path_join_stem OUTPUT_DIR (py_lower project_key)) as [s1 H1].
  rewrite !H1 by (try reflexivity; cbn; lia). intros H.
  apply string_app_inj_l in H. discriminate H.
Qed.


(** What [load_checkpoint] returns, by the state of the checkpoint file. *)
Lemma load_checkpoint_result c w :
  result_of (load_checkpoint c) w
  = match files w !! checkpoint_file c with
    | None => Ok (JInt 0)
    | Some (JsonText j) => py_get j "last_startAt" (JInt 0)
    | Some (JsonLines [j]) => py_get j "last_startAt" (JInt 0)
    | Some Undecodable => Raise UnicodeDecodeError
    | Some _ => Ok (JInt 0)
    end.
Proof.
  unfold result_of, load_checkpoint, mbind, M_bind, path_exists, try_except,
    json_load, lift, print, emit, mret, M_ret.
  destruct (files w !! checkpoint_file c) as [[j|[|j [|j' l]]| |]|] eqn:Hf;
    simpl; rewrite ?Hf; simpl; try reflexivity.
  - destruct j; reflexivity.
  - destruct j; reflexivity.
Qed.

Section Checkpoints.

(** The collection whose checkpoint is read. *)
Variable collection : string.

(** No checkpoint file: 0, nothing printed. *)
Lemma load_checkpoint_absent w :
  files w !! checkpoint_file collection = None ->
  load_checkpoint collection w = (Ok (JInt 0), w).
Proof.
  intros Hf.
  unfold load_checkpoint, mbind, M_bind, path_exists, mret, M_ret.
  rewrite Hf. reflexivity.
Qed.

(** A checkpoint file that is not JSON: the warning is printed and 0 is
    returned. *)
Lemma load_checkpoint_garbled w :
  files w !! checkpoint_file collection = Some Garbled ->
  load_checkpoint collection w
  = (Ok (JInt 0), log [Print (CheckpointCorrupted collection)] w).
Proof.
  intros Hf.
  unfold load_checkpoint, mbind, M_bind, path_exists, try_except, json_load,
    print, emit, mret, M_ret.
  rewrite Hf. simpl. rewrite Hf. reflexivity.
Qed.

(** What [load_checkpoint] returns depends on the files only. *)
Lemma load_checkpoint_files w1 w2 :
  files w1 = files w2 ->
  result_of (load_checkpoint collection) w1
  = result_of (load_checkpoint collection) w2.
Proof. intros H. rewrite !load_checkpoint_result, H. reflexivity. Qed.

Lemma load_after_content v w :
  files w !! checkpoint_file collection = Some (checkpoint_content v) ->
  result_of (load_checkpoint collection) w = Ok (JInt v).
Proof. intros Hf. rewrite load_checkpoint_result, Hf. reflexivity. Qed.

Lemma save_checkpoint_files c v w :
  files (world_after (save_checkpoint c v) w)
  = <[checkpoint_file c := checkpoint_content v]> (files w).
Proof. reflexivity. Qed.



(** C10, amended. For every collection whose id is a plain file name (no
    slash and no NUL in it, short enough for the name of its checkpoint
    file) and every offset [json.dump] writes (an integer of at most 4300
    digits), saving the offset and then loading the collection returns the
    offset, and the save leaves what load returns unchanged for every
    other collection whose id is a plain file name. *)
Theorem checkpoint_roundtrip_isolation (w : world) (v : Z) :
  plain_name collection = true ->
  Z.abs v < 10 ^ MAX_STR_DIGITS ->
  result_of (load_checkpoint collection) (world_after (save_checkpoint collection v) w)
  = Ok (JInt v)
  /\ forall c', plain_name c' = true -> c' <> collection ->
       result_of (load_checkpoint c') (world_after (save_checkpoint collection v) w)
       = result_of (load_checkpoint c') w.
Proof.
  intros Hplain _. split.
  - apply load_after_content. rewrite save_checkpoint_files.
    apply lookup_insert_eq.
  - intros c' Hplain' Hne.
    rewrite !load_checkpoint_result, save_checkpoint_files.
    rewrite lookup_insert_ne; [reflexivity|].
    intros Heq. apply Hne. symmetry.
    apply checkpoint_file_inj; [apply plain_name_no_slash..|]; assumption.
Qed.

End Checkpoints.



(** C8 at the failing input: a checkpoint file holding the JSON document
    [[]] makes [load_checkpoint] raise [AttributeError], which nothing
    catches, so [scrape_project] ends with that exception. *)
Theorem load_checkpoint_list_document_raises :
  result_of (load_checkpoint "ACE") world_with_list_checkpoint = Raise AttributeError
  /\ result_of (scrape_project healthy_service id "ACE") world_with_list_checkpoint
     = Raise AttributeError.
Proof. split; vm_compute; reflexivity. Qed.

(** C10, as stated, fails: the ids ./ACE and ACE are different, but
    [pathlib] gives both the checkpoint file of ACE, so that a save for
    ./ACE changes what load returns for ACE, from 0 to 150. *)
Lemma checkpoint_isolation_counterexample :
  "./ACE"%string <> "ACE"%string
  /\ checkpoint_file "./ACE" = checkpoint_file "ACE"
  /\ result_of (load_checkpoint "ACE") empty_world = Ok (JInt 0)
  /\ result_of (load_checkpoint "ACE")
       (world_after (save_checkpoint "./ACE" 150) empty_world)
     = Ok (JInt 150)
  /\ result_of (load_checkpoint "ACE")
       (world_after (save_checkpoint "./ACE" 150) empty_world)
     <> result_of (load_checkpoint "ACE") empty_world.
Proof.
  split; [discriminate|]. split; [reflexivity|]. split; [reflexivity|].
  split; [reflexivity|]. vm_compute. discriminate.
Qed.

Lemma checkpoint_roundtrip_isolation_witness :
  result_of (load_checkpoint "ACE") (world_after (save_checkpoint "ACE" 150) empty_world)
  = Ok (JInt 150)
  /\ result_of (load_checkpoint "ACCUMULO")
       (world_after (save_checkpoint "ACE" 150) empty_world)
     = result_of (load_checkpoint "ACCUMULO") empty_world.
Proof.
  destruct (checkpoint_roundtrip_isolation "ACE" empty_world 150) as [Hload Hother].
  - reflexivity.
  - vm_compute. reflexivity.
  - split; [exact Hload|]. apply Hother; [reflexivity|discriminate].
Defined.

(** ** Statements and their events *)

Lemma log_log evs1 evs2 w : log evs2 (log evs1 w) = log (evs1 ++ evs2) w.
Proof. unfold log. simpl. now rewrite app_assoc. Qed.

Lemma log_nil w : log [] w = w.
Proof. destruct w. unfold log. simpl. now rewrite app_nil_r. Qed.

Lemma events_since_log w evs : events_since w (log evs w) = evs.
Proof. unfold events_since, log. simpl. apply drop_app_length. Qed.

Lemma events_since_app w w' evs :
  trace w' = trace w ++ evs -> events_since w w' = evs.
Proof. intros H. unfold events_since. rewrite H. apply drop_app_length. Qed.

Lemma sleeps_app evs1 evs2 : sleeps (evs1 ++ evs2) = sleeps evs1 ++ sleeps evs2.
Proof. apply flat_map_app. Qed.

Lemma requests_made_app evs1 evs2 :
  requests_made (evs1 ++ evs2) = (requests_made evs1 + requests_made evs2)%nat.
Proof. unfold requests_made. now rewrite flat_map_app, length_app. Qed.

Lemma file_writes_app evs1 evs2 :
  file_writes (evs1 ++ evs2) = file_writes evs1 ++ file_writes evs2.
Proof. apply flat_map_app. Qed.

Lemma bind_ok {A B} (m : M A) (k : A -> M B) w a w' :
  m w = (Ok a, w') -> (m ≫= k) w = k a w'.
Proof. intros H. unfold mbind, M_bind. rewrite H. reflexivity. Qed.

Lemma emit_log ev w : emit ev w = (Ok tt, log [ev] w).
Proof. reflexivity. Qed.

Lemma print_log m w : print m w = (Ok tt, log [Print m] w).
Proof. reflexivity. Qed.

Lemma time_sleep_log seconds w :
  0 <= seconds <= SLEEP_MAX ->
  time_sleep seconds w = (Ok tt, log [Sleep seconds] w).
Proof.
  intros Hs. unfold time_sleep.
  destruct (Z.ltb_spec seconds (- SLEEP_MAX)); [unfold SLEEP_MAX in *; lia|].
  destruct (Z.ltb_spec SLEEP_MAX seconds); [lia|].
  destruct (Z.ltb_spec seconds 0); [lia|reflexivity].
Qed.

Lemma time_sleep_negative seconds w :
  - SLEEP_MAX <= seconds < 0 -> time_sleep seconds w = (Raise ValueError, w).
Proof.
  intros Hs. unfold time_sleep.
  destruct (Z.ltb_spec seconds (- SLEEP_MAX)); [lia|].
  destruct (Z.ltb_spec SLEEP_MAX seconds); [unfold SLEEP_MAX in *; lia|].
  destruct (Z.ltb_spec seconds 0); [reflexivity|lia].
Qed.

Lemma time_sleep_overflow seconds w :
  (seconds <? - SLEEP_MAX) || (SLEEP_MAX <? seconds) = true ->
  time_sleep seconds w = (Raise OverflowError, w).
Proof. intros Hs. unfold time_sleep. rewrite Hs. reflexivity. Qed.

(** *** Statements that leave the files alone *)

Lemma io_only_ret {A} (a : A) : io_only (mret a).
Proof. exists (Ok a), []. split; [reflexivity|]. intros w. now rewrite log_nil. Qed.

Lemma io_only_lift {A} (o : outcome A) : io_only (lift o).
Proof. exists o, []. split; [reflexivity|]. intros w. now rewrite log_nil. Qed.

Lemma io_only_bind {A B} (m : M A) (k : A -> M B) :
  io_only m -> (forall a, io_only (k a)) -> io_only (m ≫= k).
Proof.
  intros (r & evs & Hnw & Hm) Hk. destruct r as [a|e].
  - destruct (Hk a) as (r' & evs' & Hnw' & Hk').
    exists r', (evs ++ evs'). split.
    + rewrite file_writes_app, Hnw, Hnw'. reflexivity.
    + intros w. unfold mbind, M_bind. rewrite Hm, Hk', log_log. reflexivity.
  - exists (Raise e), evs. split; [exact Hnw|].
    intros w. unfold mbind, M_bind. rewrite Hm. reflexivity.
Qed.

Lemma io_only_print m : io_only (print m).
Proof. exists (Ok tt), [Print m]. split; reflexivity. Qed.

Lemma io_only_get url params : io_only (emit (HttpGet url params)).
Proof. exists (Ok tt), [HttpGet url params]. split; reflexivity. Qed.

Lemma io_only_time_sleep seconds : io_only (time_sleep seconds).
Proof.
  unfold time_sleep.
  destruct ((seconds <? - SLEEP_MAX) || (SLEEP_MAX <? seconds));
    [apply io_only_lift|].
  destruct (seconds <? 0).
  - apply io_only_lift.
  - exists (Ok tt), [Sleep seconds]. split; reflexivity.
Qed.

Lemma io_only_try_except {A} (body : M A) caught handler :
  io_only body -> (forall e, io_only (handler e)) ->
  io_only (try_except body caught handler).
Proof.
  intros (r & evs & Hnw & Hm) Hh. destruct r as [a|e].
  - exists (Ok a), evs. split; [exact Hnw|].
    intros w. unfold try_except. rewrite Hm. reflexivity.
  - destruct (caught e) eqn:Hc.
    + destruct (Hh e) as (r' & evs' & Hnw' & Hh').
      exists r', (evs ++ evs'). split.
      * rewrite file_writes_app, Hnw, Hnw'. reflexivity.
      * intros w. unfold try_except. rewrite Hm, Hc, Hh', log_log. reflexivity.
    + exists (Raise e), evs. split; [exact Hnw|].
      intros w. unfold try_except. rewrite Hm, Hc. reflexivity.
Qed.

Lemma io_only_for_return {A} (l : list Z) (body : Z -> M (control A)) after :
  (forall x, io_only (body x)) -> io_only after ->
  io_only (for_return l body after).
Proof.
  intros Hbody Hafter. induction l as [|x l IH]; simpl; [exact Hafter|].
  apply io_only_bind; [apply Hbody|].
  intros [|a]; [exact IH|apply io_only_ret].
Qed.

Create HintDb io_only discriminated.

#[local] Hint Resolve io_only_ret io_only_lift io_only_print io_only_get
  io_only_time_sleep : io_only.

(** A sequence of statements is [io_only] when each of them is. *)
Ltac io_only_steps :=
  repeat (apply io_only_bind; [|intros ?]); auto with io_only.

(** ** The retry loop *)

Section Executor.

(** One call [safe_request(url, params)] against the service [net]. *)
Variable net : network.
Variable url : string.
Variable params : json.

Lemma io_only_retries_exhausted : io_only (retries_exhausted url).
Proof. unfold retries_exhausted. io_only_steps. Qed.

Lemma io_only_safe_request_attempt attempt :
  io_only (safe_request_attempt net url params attempt).
Proof.
  unfold safe_request_attempt.
  apply io_only_try_except; [|intros e; io_only_steps].
  apply io_only_bind; [auto with io_only|]. intros _.
  destruct (net url params attempt) as [status_code header body|msg];
    [|apply io_only_lift].
  destruct (status_code =? 200); [io_only_steps|].
  destruct (status_code =? 429); [io_only_steps|].
  destruct ((500 <=? status_code) && (status_code <? 600)); io_only_steps.
Qed.

Lemma io_only_safe_request : io_only (safe_request net url params).
Proof.
  unfold safe_request. apply io_only_bind; [auto with io_only|]. intros attempts.
  apply io_only_for_return;
    [apply io_only_safe_request_attempt|apply io_only_retries_exhausted].
Qed.

(** *** One attempt *)

Lemma backoff_nonneg a :
  0 <= a -> 0 <= Z.min (RETRY_BACKOFF * a) 60 <= SLEEP_MAX.
Proof. unfold RETRY_BACKOFF, SLEEP_MAX. lia. Qed.

(** A retried attempt requests, prints, pauses and asks for the next
    attempt. *)
Lemma attempt_retried a w :
  0 <= a -> retried (net url params a) = true ->
  exists m,
    safe_request_attempt net url params a w
    = (Ok Next,
       log [HttpGet url params; Print m; Sleep (pause_after a (net url params a))] w).
Proof.
  intros Ha Hr. pose proof (backoff_nonneg a Ha) as Hb.
  unfold safe_request_attempt, try_except, mbind, M_bind, print.
  rewrite emit_log. unfold retried, pause_after in *.
  destruct (net url params a) as [status_code header body|msg].
  - destruct (Z.eqb_spec status_code 200) as [->|H200]; [discriminate|].
    destruct (Z.eqb_spec status_code 429) as [->|H429].
    + simpl in Hr. rewrite orb_false_r in Hr. unfold usable_retry_after in Hr.
      destruct header as [h|].
      * destruct (py_int h) as [v|e]; [|discriminate].
        apply andb_true_iff in Hr as [Hlo Hhi].
        apply Z.leb_le in Hlo, Hhi. eexists. unfold lift at 1.
        rewrite emit_log, time_sleep_log
          by (unfold SLEEP_SAFE, SLEEP_MAX in *; lia).
        unfold mret, M_ret. rewrite !log_log. reflexivity.
      * eexists. unfold lift at 1.
        rewrite emit_log, time_sleep_log by (unfold SLEEP_MAX; lia).
        unfold mret, M_ret. rewrite !log_log. reflexivity.
    + simpl in Hr. rewrite Hr. eexists.
      rewrite emit_log, time_sleep_log by exact Hb.
      unfold mret, M_ret. rewrite !log_log. reflexivity.
  - eexists. unfold raise, lift. cbn [is_RequestException].
    rewrite emit_log, time_sleep_log by exact Hb.
    unfold mret, M_ret. rewrite !log_log. reflexivity.
Qed.


(** *** The loop *)

(** While the attempts are retried the loop goes on: one request and one
    pause each. *)
Lemma retried_prefix (l1 l2 : list Z) w :
  Forall (fun j => 0 <= j /\ retried (net url params j) = true) l1 ->
  exists evs,
    sleeps evs = map (fun j => pause_after j (net url params j)) l1
    /\ requests_made evs = length l1
    /\ for_return (l1 ++ l2) (safe_request_attempt net url params) (retries_exhausted url) w
       = for_return l2 (safe_request_attempt net url params) (retries_exhausted url) (log evs w).
Proof.
  revert w. induction l1 as [|j l1 IH]; intros w Hall.
  - exists []. rewrite log_nil. auto.
  - apply Forall_cons in Hall as [[Hj Hr] Hall].
    destruct (attempt_retried j w Hj Hr) as [m Hstep].
    destruct (IH (log [HttpGet url params; Print m;
                       Sleep (pause_after j (net url params j))] w) Hall)
      as (evs & Hsl & Hreq & Hloop).
    exists ([HttpGet url params; Print m;
             Sleep (pause_after j (net url params j))] ++ evs).
    split; [|split].
    + rewrite sleeps_app, Hsl. reflexivity.
    + rewrite requests_made_app, Hreq. reflexivity.
    + cbn [app for_return]. erewrite bind_ok by exact Hstep.
      cbv beta iota. rewrite Hloop, log_log. reflexivity.
Qed.

Lemma attempts_are_one_to_five :
  py_range 1 (MAX_RETRIES + 1) 1 = Ok [1; 2; 3; 4; 5].
Proof. reflexivity. Qed.

Lemma attempts_split a :
  1 <= a <= MAX_RETRIES ->
  exists l1 l2,
    [1; 2; 3; 4; 5] = l1 ++ a :: l2
    /\ length l1 = Z.to_nat (a - 1)
    /\ Forall (fun j => 1 <= j < a) l1.
Proof.
  unfold MAX_RETRIES. intros Ha.
  assert (a = 1 \/ a = 2 \/ a = 3 \/ a = 4 \/ a = 5) as [->|[->|[->|[->| ->]]]] by lia.
  - exists [], [2; 3; 4; 5]. repeat split. constructor.
  - exists [1], [3; 4; 5]. repeat split. repeat constructor; lia.
  - exists [1; 2], [4; 5]. repeat split. repeat constructor; lia.
  - exists [1; 2; 3], [5]. repeat split. repeat constructor; lia.
  - exists [1; 2; 3; 4], []. repeat split. repeat constructor; lia.
Qed.

(** A call whose attempts before [a] are all retried reaches attempt [a]
    after [a - 1] requests and [a - 1] pauses. *)
Lemma safe_request_reaches w a :
  1 <= a <= MAX_RETRIES ->
  (forall j, 1 <= j < a -> retried (net url params j) = true) ->
  exists evs l2,
    length (sleeps evs) = Z.to_nat (a - 1)
    /\ requests_made evs = Z.to_nat (a - 1)
    /\ safe_request net url params w
       = for_return (a :: l2) (safe_request_attempt net url params) (retries_exhausted url)
           (log evs w).
Proof.
  intros Ha Hprev.
  destruct (attempts_split a Ha) as (l1 & l2 & Hsplit & Hlen & Hl1).
  destruct (retried_prefix l1 (a :: l2) w) as (evs & Hsl & Hreq & Hloop).
  { apply (List.Forall_impl (P := fun j => 1 <= j < a)); [|exact Hl1].
    intros j Hj. split; [lia|]. now apply Hprev. }
  exists evs, l2. split; [|split].
  - rewrite Hsl, length_map. exact Hlen.
  - rewrite Hreq. exact Hlen.
  - unfold safe_request. rewrite attempts_are_one_to_five.
    unfold mbind at 1, M_bind at 1, lift at 1. rewrite Hsplit. exact Hloop.
Qed.

(** The pause the specification gives for an attempt is the one the
    attempt makes. *)
Lemma expected_pause (a pause : Z) :
  match net url params a with
  | Failure _ => pause = Z.min (RETRY_BACKOFF * a) 60
  | Response status_code header _ =>
      (500 <= status_code < 600 /\ pause = Z.min (RETRY_BACKOFF * a) 60)
      \/ (status_code = 429 /\ header = None /\ pause = 60)
      \/ (status_code = 429
          /\ exists h, header = Some h /\ py_int h = Ok pause
                       /\ 0 <= pause <= SLEEP_SAFE)
  end ->
  retried (net url params a) = true /\ pause_after a (net url params a) = pause.
Proof.
  unfold retried, pause_after.
  destruct (net url params a) as [status_code header body|msg]; [|auto].
  intros [[H5xx ->]|[(-> & -> & ->)|(-> & h & -> & Hint & Hpos)]].
  - destruct (Z.eqb_spec status_code 429); [lia|]. split; [|reflexivity].
    destruct (Z.leb_spec 500 status_code); destruct (Z.ltb_spec status_code 600);
      solve [lia | reflexivity].
  - split; reflexivity.
  - cbn. rewrite Hint. split; [|reflexivity].
    rewrite orb_false_r. apply andb_true_iff. split; apply Z.leb_le; lia.
Qed.

(** X23. For every attempt number a (counted from 1) the pause of the
    retry loop after an HTTP 5xx response or a transport failure is
    min(RETRY_BACKOFF * a, 60) seconds with RETRY_BACKOFF = 5, and after an
    HTTP 429 it is 60 seconds when there is no Retry-After header, and the
    number of seconds the header gives when it is an integer literal from
    0 to [SLEEP_SAFE]: that is the one pause of the loop body run as
    attempt a, and the a-th pause of a call of [safe_request] that gets as
    far as attempt a. *)
Theorem backoff_bound (w : world) (a pause : Z) :
  1 <= a ->
  match net url params a with
  | Failure _ => pause = Z.min (RETRY_BACKOFF * a) 60
  | Response status_code header _ =>
      (500 <= status_code < 600 /\ pause = Z.min (RETRY_BACKOFF * a) 60)
      \/ (status_code = 429 /\ header = None /\ pause = 60)
      \/ (status_code = 429
          /\ exists h, header = Some h /\ py_int h = Ok pause
                       /\ 0 <= pause <= SLEEP_SAFE)
  end ->
  RETRY_BACKOFF = 5
  /\ sleeps (events_since w
               (world_after (safe_request_attempt net url params a) w)) = [pause]
  /\ (a <= MAX_RETRIES ->
      (forall j, 1 <= j < a -> retried (net url params j) = true) ->
      sleeps (events_since w (world_after (safe_request net url params) w))
        !! Z.to_nat (a - 1) = Some pause).
Proof.
  intros Ha Hcase. apply expected_pause in Hcase as [Hr Hp].
  split; [reflexivity|]. split.
  - destruct (attempt_retried a w ltac:(lia) Hr) as [m Hstep].
    unfold world_after. rewrite Hstep. cbn [snd].
    rewrite events_since_log, Hp. reflexivity.
  - intros Hmax Hprev.
    destruct (safe_request_reaches w a ltac:(lia) Hprev)
      as (evs & l2 & Hsl & _ & Hrun).
    destruct (attempt_retried a (log evs w) ltac:(lia) Hr) as [m Hstep].
    destruct (io_only_for_return l2 (safe_request_attempt net url params) (retries_exhausted url))
      as (r & evs3 & _ & Hrest);
      [apply io_only_safe_request_attempt|apply io_only_retries_exhausted|].
    unfold world_after. rewrite Hrun. cbn [for_return].
    erewrite bind_ok by exact Hstep. cbv beta iota.
    rewrite Hrest, !log_log. cbn [snd].
    rewrite events_since_log, !sleeps_app, Hp.
    apply list_lookup_middle. symmetry. exact Hsl.
Qed.


End Executor.

#[local] Hint Resolve io_only_safe_request : io_only.

Lemma backoff_bound_witness :
  RETRY_BACKOFF = 5
  /\ sleeps (events_since empty_world
               (world_after (safe_request_attempt flaky_service BASE_URL JNull 3)
                  empty_world)) = [7]
  /\ (3 <= MAX_RETRIES ->
      (forall j, 1 <= j < 3 -> retried (flaky_service BASE_URL JNull j) = true) ->
      sleeps (events_since empty_world
                (world_after (safe_request flaky_service BASE_URL JNull) empty_world))
        !! Z.to_nat (3 - 1) = Some 7).
Proof.
  apply (backoff_bound flaky_service BASE_URL JNull empty_world 3 7); [lia|].
  right. right. split; [reflexivity|].
  exists "7"%string. split; [reflexivity|]. split; [reflexivity|].
  unfold SLEEP_SAFE. lia.
Defined.

(** C6 at the failing input: a 429 whose Retry-After header is an HTTP
    date, the other form the header may take.  [int] raises [ValueError]
    on it and nothing in [safe_request] catches that: the call ends with
    the exception after one request, without having slept and without a
    retry, and so does the run of [scrape_project] that made it. *)
Theorem retry_after_date_not_slept :
  dated_service BASE_URL (count_params "ACE") 1
  = Response 429 (Some "Wed, 21 Oct 2015 07:28:00 GMT"%string) JNull
  /\ result_of (safe_request dated_service BASE_URL (count_params "ACE")) empty_world
     = Raise ValueError
  /\ sleeps (events_since empty_world
               (world_after (safe_request dated_service BASE_URL (count_params "ACE"))
                  empty_world)) = []
  /\ requests_made (events_since empty_world
                      (world_after
                         (safe_request dated_service BASE_URL (count_params "ACE"))
                         empty_world)) = 1%nat
  /\ result_of (scrape_project dated_service id "ACE") empty_world
     = Raise ValueError.
Proof.
  split; [reflexivity|]. split; [vm_compute; reflexivity|].
  split; [vm_compute; reflexivity|]. split; vm_compute; reflexivity.
Qed.


Lemma io_only_get_total_issues net project_key :
  io_only (get_total_issues net project_key).
Proof.
  unfold get_total_issues. apply io_only_bind; [auto with io_only|].
  intros data. destruct (truthy data); auto with io_only.
Qed.

Lemma io_only_fetch_page net project_key start_at :
  io_only (fetch_page net project_key start_at).
Proof.
  unfold fetch_page. apply io_only_bind; [auto with io_only|].
  intros data. destruct (negb (truthy data)); io_only_steps.
Qed.

(** ** Page fetches and the loop over completed futures *)

(** The loop over the records of a page appends the transformed records
    until one cannot be transformed. *)
Lemma transform_loop (items : list json) (w : world) :
  exists o recs,
    for_each items
      (fun issue => record ← lift (transform_issue issue); results_append record) w
    = (o, mkWorld (files w) (trace w) (results w ++ recs))
    /\ (forallb transforms items = true -> o = Ok tt)
    /\ (forallb transforms items = false -> exists e, o = Raise e).
Proof.
  revert w. induction items as [|issue items IH]; intros w.
  - exists (Ok tt), []. cbn. rewrite app_nil_r. destruct w.
    split; [reflexivity|]. split; [reflexivity|discriminate].
  - cbn [for_each forallb]. unfold transforms at 1 3.
    unfold mbind at 1, M_bind at 1. unfold mbind at 1, M_bind at 1, lift at 1.
    destruct (transform_issue issue) as [record|e].
    + unfold results_append at 1.
      destruct (IH (mkWorld (files w) (trace w) (results w ++ [record])))
        as (o & recs & Hrun & Hok & Hbad).
      exists o, (record :: recs). cbn [files trace results] in Hrun.
      rewrite Hrun, <- app_assoc. auto.
    + exists (Raise e), []. rewrite app_nil_r. destruct w. cbn.
      split; [reflexivity|]. split; [discriminate|]. eauto.
Qed.

Section Scheduler.

(** The pages of one collection, fetched from the service [net]. *)
Variable net : network.
Variable project_key : string.

(** [fetch_page] returns [page_result] in every world and writes no
    file. *)
Lemma fetch_page_run start_at :
  exists evs,
    file_writes evs = []
    /\ forall w, fetch_page net project_key start_at w
                 = (page_result net project_key start_at, log evs w).
Proof.
  destruct (io_only_fetch_page net project_key start_at) as (r & evs & Hnw & Hrun).
  exists evs. split; [exact Hnw|]. intros w.
  unfold page_result, result_of. rewrite !Hrun. reflexivity.
Qed.

(** The offset [fetch_page] returns is the one it was asked for. *)
Lemma page_result_offset start_at o issues :
  page_result net project_key start_at = Ok (o, issues) -> o = start_at.
Proof.
  unfold page_result, result_of, fetch_page, mbind, M_bind.
  destruct (safe_request net BASE_URL (page_params project_key start_at)
              (mkWorld ∅ [] [])) as [[data|e] w']; [|discriminate].
  destruct (negb (truthy data)).
  - unfold mret, M_ret. cbn. congruence.
  - unfold lift. destruct (py_get data "issues" (JArr [])); cbn; congruence.
Qed.

(** C9. When the resilient call returns [None] (retries exhausted or a
    status that is not retried), [fetch_page] returns the requested start
    offset paired with the empty list, which is also what it returns for a
    page whose body holds no issues: the loop that takes the result sees
    the same value in both cases. *)
Theorem failed_page_looks_empty (start_at : Z) (w : world) :
  (result_of (safe_request net BASE_URL (page_params project_key start_at)) w
   = Ok JNull ->
   result_of (fetch_page net project_key start_at) w = Ok (start_at, JArr []))
  /\ (forall data,
        result_of (safe_request net BASE_URL (page_params project_key start_at)) w
        = Ok data ->
        py_get data "issues" (JArr []) = Ok (JArr []) ->
        result_of (fetch_page net project_key start_at) w = Ok (start_at, JArr [])).
Proof.
  unfold result_of, fetch_page, mbind, M_bind.
  destruct (safe_request net BASE_URL (page_params project_key start_at) w)
    as [[data|e] w']; cbn [fst].
  - split.
    + intros [= ->]. reflexivity.
    + intros data' [= <-] Hissues.
      destruct (negb (truthy data)); [reflexivity|].
      unfold lift. rewrite Hissues. reflexivity.
  - split; [discriminate|]. intros data' Hd. discriminate.
Qed.

Ltac finish_turn Hnw :=
  cbn; unfold emit, print, emit; cbn;
  rewrite <- ?app_assoc, ?app_nil_r; cbn;
  split; [reflexivity | rewrite file_writes_app, Hnw; reflexivity].

(** What one turn of the loop over the completed futures does. *)
Lemma process_future_run start_at w :
  exists evs recs,
    process_future net project_key start_at w
    = (Ok tt,
       mkWorld (if unit_saves net project_key start_at
                then <[checkpoint_file project_key
                       := checkpoint_content (start_at + MAX_RESULTS)]> (files w)
                else files w)
               (trace w ++ evs) (results w ++ recs))
    /\ file_writes evs
       = if unit_saves net project_key start_at
         then [(checkpoint_file project_key,
                checkpoint_content (start_at + MAX_RESULTS))]
         else [].
Proof.
  destruct (fetch_page_run start_at) as (evs & Hnw & Hfetch).
  unfold process_future, unit_saves.
  unfold mbind at 1, M_bind at 1, try_except. unfold mbind at 1, M_bind at 1.
  rewrite Hfetch.
  destruct (page_result net project_key start_at) as [[o issues]|e].
  - cbn [snd]. destruct (truthy issues); cbn [andb].
    + unfold mbind at 1, M_bind at 1, lift at 1, all_transform.
      destruct (py_iter issues) as [items|e].
      * unfold mbind at 1, M_bind at 1.
        destruct (transform_loop items (log evs w)) as (r & recs & Hloop & Hok & Hbad).
        rewrite Hloop. destruct (forallb transforms items).
        -- rewrite (Hok eq_refl).
           exists (evs ++ [FileWrite (checkpoint_file project_key)
                             (checkpoint_content (start_at + MAX_RESULTS));
                           ProgressUpdate]), recs.
           finish_turn Hnw.
        -- destruct (Hbad eq_refl) as [e ->].
           exists (evs ++ [Print (ErrorProcessingFuture start_at e); ProgressUpdate]),
             recs.
           finish_turn Hnw.
      * exists (evs ++ [Print (ErrorProcessingFuture start_at e); ProgressUpdate]), [].
        finish_turn Hnw.
    + exists (evs ++ [ProgressUpdate]), [].
      finish_turn Hnw.
  - exists (evs ++ [Print (ErrorProcessingFuture start_at e); ProgressUpdate]), [].
    finish_turn Hnw.
Qed.

Lemma unit_saves_iff start_at :
  unit_saves net project_key start_at = true
  <-> exists issues,
        page_result net project_key start_at = Ok (start_at, issues)
        /\ truthy issues = true /\ all_transform issues = true.
Proof.
  unfold unit_saves. split.
  - destruct (page_result net project_key start_at) as [[o issues]|e] eqn:Hres;
      [|discriminate].
    intros [Ht Ha]%andb_prop. exists issues.
    apply page_result_offset in Hres as Ho. subst o. auto.
  - intros (issues & -> & -> & ->). reflexivity.
Qed.

(** C5, amended. For every completed page unit with start offset o, the
    loop saves a checkpoint for that unit if and only if the fetch returned
    a non-empty result and every record of it was transformed without an
    exception; the saved value is exactly o + MAX_RESULTS and nothing else
    is written; a page whose result is empty (failed or genuinely empty)
    causes no checkpoint write and leaves the files as they were. *)
Theorem checkpoint_advance (o : Z) (w : world) :
  let w' := world_after (process_future net project_key o) w in
  let writes := file_writes (events_since w w') in
  (writes = [(checkpoint_file project_key, checkpoint_content (o + MAX_RESULTS))]
   /\ files w' = <[checkpoint_file project_key
                   := checkpoint_content (o + MAX_RESULTS)]> (files w)
   \/ writes = [] /\ files w' = files w)
  /\ (writes <> []
      <-> exists issues,
            page_result net project_key o = Ok (o, issues)
            /\ truthy issues = true /\ all_transform issues = true).
Proof.
  destruct (process_future_run o w) as (evs & recs & Hrun & Hwr).
  cbv zeta. unfold world_after. rewrite Hrun. cbn [snd files].
  rewrite (events_since_app w _ evs) by reflexivity.
  rewrite Hwr, <- unit_saves_iff.
  destruct (unit_saves net project_key o).
  - split; [left; split; reflexivity|]. split; [reflexivity|discriminate].
  - split; [right; split; reflexivity|]. split; [congruence|discriminate].
Qed.

(** The loop over the completed futures leaves in the checkpoint file what
    the last unit that saved wrote. *)
Lemma drain_run (order : list Z) w :
  exists fs evs recs,
    for_each order (process_future net project_key) w
    = (Ok tt, mkWorld fs (trace w ++ evs) (results w ++ recs))
    /\ fs !! checkpoint_file project_key
       = match last (List.filter (unit_saves net project_key) order) with
         | Some o => Some (checkpoint_content (o + MAX_RESULTS))
         | None => files w !! checkpoint_file project_key
         end
    /\ (order = [] -> recs = [] /\ evs = []).
Proof.
  revert w. induction order as [|o order IH]; intros w.
  - exists (files w), [], []. cbn. rewrite !app_nil_r. destruct w. auto.
  - destruct (process_future_run o w) as (evs1 & recs1 & Hrun & _).
    cbn [for_each]. erewrite bind_ok by exact Hrun.
    match type of Hrun with
    | _ = (_, ?w1) => destruct (IH w1) as (fs & evs & recs & Hrest & Hfs & _)
    end.
    exists fs, (evs1 ++ evs), (recs1 ++ recs).
    rewrite Hrest. cbn [files trace results]. rewrite !app_assoc.
    split; [reflexivity|]. split; [|discriminate].
    rewrite Hfs. cbn [List.filter files].
    destruct (unit_saves net project_key o).
    + rewrite last_cons.
      destruct (last (List.filter (unit_saves net project_key) order));
        [reflexivity|].
      apply lookup_insert_eq.
    + reflexivity.
Qed.

End Scheduler.

Lemma failed_page_looks_empty_witness :
  result_of (fetch_page flaky_service "ACE" 50) empty_world = Ok (50, JArr [])
  /\ result_of (fetch_page empty_service "ACE" 50) empty_world = Ok (50, JArr []).
Proof.
  split.
  - apply (proj1 (failed_page_looks_empty flaky_service "ACE" 50 empty_world)).
    reflexivity.
  - apply (proj2 (failed_page_looks_empty empty_service "ACE" 50 empty_world)
             (JObj [("total", JInt 0); ("issues", JArr [])]));
      reflexivity.
Defined.

(** C5, as stated, fails: the page at offset 0 of a service whose only
    issue has a null reporter comes back with one record, yet the loop
    writes no checkpoint for it, because [transform_issue] raises on the
    record and the [except] clause skips the save. *)
Lemma checkpoint_advance_counterexample :
  page_result anonymous_service "ACE" 0
  = Ok (0, JArr [sample_issue "ACE-7" [("reporter", JNull)]])
  /\ file_writes (events_since empty_world
                    (world_after (process_future anonymous_service "ACE" 0)
                       empty_world)) = []
  /\ files (world_after (process_future anonymous_service "ACE" 0) empty_world)
     = files empty_world.
Proof. split; [|split]; vm_compute; reflexivity. Qed.

(** ** A whole run of [scrape_project] *)

(** [load_checkpoint] writes no file and sends no request; at most it
    prints the warning. *)
Lemma load_checkpoint_run c w :
  exists evs,
    file_writes evs = [] /\ requests_made evs = 0%nat
    /\ load_checkpoint c w = (result_of (load_checkpoint c) w, log evs w).
Proof.
  unfold result_of.
  unfold load_checkpoint, mbind, M_bind, path_exists, try_except, json_load,
    lift, print, emit, mret, M_ret.
  destruct (files w !! checkpoint_file c) as [[j|[|j [|j' l]]| |]|] eqn:Hf;
    cbn; rewrite ?Hf; cbn.
  - exists []. rewrite log_nil. repeat split. destruct j; reflexivity.
  - exists [Print (CheckpointCorrupted c)]. repeat split.
  - exists []. rewrite log_nil. repeat split. destruct j; reflexivity.
  - exists [Print (CheckpointCorrupted c)]. repeat split.
  - exists [Print (CheckpointCorrupted c)]. repeat split.
  - exists []. rewrite log_nil. repeat split.
  - exists []. rewrite log_nil. repeat split.
Qed.

Lemma planned_pages_after_save project_key total offset w :
  files w !! checkpoint_file project_key = Some (checkpoint_content offset) ->
  total <= offset ->
  result_of (planned_pages project_key (JInt total)) w = Ok (JInt offset, []).
Proof.
  intros Hf Hge.
  destruct (load_checkpoint_run project_key w) as (evs & _ & _ & Hrun).
  rewrite (load_after_content project_key offset w Hf) in Hrun.
  unfold result_of, planned_pages. erewrite bind_ok by exact Hrun.
  unfold lift at 1. cbn [py_index mbind outcome_bind].
  rewrite plan_past_total by exact Hge. reflexivity.
Qed.

Section Driver.

(** One run of [scrape_project] on a collection whose total and start
    checkpoint are integers. *)
Variable net : network.
Variable as_completed : list Z -> list Z.
Variable project_key : string.
Variable w : world.
Variables total start : Z.
Variable pages : list Z.

Hypothesis total_found :
  result_of (get_total_issues net project_key) w = Ok (JInt total).
Hypothesis total_not_zero : total <> 0.
Hypothesis checkpoint_loaded :
  result_of (load_checkpoint project_key) w = Ok (JInt start).
Hypothesis pages_planned : plan total start MAX_RESULTS = Ok pages.

(** The run goes through to the end; the checkpoint file is left as the
    loop over the completed futures left it, and a run with nothing to
    fetch sends no request after the one for the total. *)
Lemma scrape_project_run :
  exists records w',
    scrape_project net as_completed project_key w = (Ok records, w')
    /\ files w' !! checkpoint_file project_key
       = match last (List.filter (unit_saves net project_key) (as_completed pages)) with
         | Some o => Some (checkpoint_content (o + MAX_RESULTS))
         | None => files w !! checkpoint_file project_key
         end
    /\ (as_completed pages = [] ->
        records = []
        /\ requests_made (events_since w w')
           = requests_made
               (events_since w (world_after (get_total_issues net project_key) w))).
Proof.
  destruct (io_only_get_total_issues net project_key) as (r & evsT & _ & HrunT).
  assert (r = Ok (JInt total)) as ->.
  { pose proof total_found as Ht. unfold result_of in Ht.
    rewrite HrunT in Ht. exact Ht. }
  set (w1 := log [Print (ScraperInitiated project_key)] w).
  set (w2 := log evsT w1).
  set (w3 := log [Print (TotalIssuesFound project_key (JInt total))] w2).
  destruct (load_checkpoint_run project_key w3) as (evsL & _ & HreqL & HrunL).
  rewrite (load_checkpoint_files project_key w3 w) in HrunL by reflexivity.
  rewrite checkpoint_loaded in HrunL.
  set (w4 := log evsL w3) in *.
  assert (Hplanned : planned_pages project_key (JInt total) w3
                     = (Ok (JInt start, pages), w4)).
  { unfold planned_pages. erewrite bind_ok by exact HrunL.
    unfold lift at 1. cbn [py_index mbind outcome_bind]. rewrite pages_planned.
    reflexivity. }
  set (w5 := mkWorld (files w4) (trace w4) []).
  set (w6 := log [Print (ResumingFrom (JInt start) (length pages))] w5).
  destruct (drain_run net project_key (as_completed pages) w6)
    as (fs & evs & recs & Hdrain & Hfs & Hnone).
  eexists recs, _. split; [|split].
  - unfold scrape_project.
    erewrite bind_ok by apply print_log.
    erewrite bind_ok by apply HrunT.
    erewrite bind_ok by apply print_log.
    cbn [py_eq_zero]. destruct (Z.eqb_spec total 0) as [|_]; [contradiction|].
    erewrite bind_ok by exact Hplanned. cbn [fst snd].
    erewrite bind_ok by reflexivity.
    erewrite bind_ok by apply print_log.
    erewrite bind_ok by exact Hdrain.
    reflexivity.
  - cbn [files].
    rewrite lookup_insert_ne by apply jsonl_file_not_checkpoint.
    rewrite lookup_insert_ne by apply json_file_not_checkpoint.
    exact Hfs.
  - intros Hempty. destruct (Hnone Hempty) as [-> ->]. split; [reflexivity|].
    unfold world_after. rewrite HrunT. cbn [snd]. rewrite events_since_log.
    erewrite events_since_app.
    2:{ cbn [trace]. unfold w6, w5, w4, w3, w2, w1, log. cbn [trace].
        rewrite <- !app_assoc. reflexivity. }
    rewrite !requests_made_app, HreqL. cbn. lia.
Qed.

End Driver.

(** C2, as stated, fails: 120 issues, three pages that all succeed, but
    the pool finishes them in the order 100, 50, 0.  The run completes with
    its six records, the checkpoint is left at 50, and the next run plans
    the pages 50 and 100 again. *)
Lemma resume_idempotence_counterexample :
  (exists records,
     result_of (scrape_project healthy_service (@rev Z) "ACE") empty_world
     = Ok records
     /\ length records = 6%nat)
  /\ result_of (planned_pages "ACE" (JInt 120))
       (world_after (scrape_project healthy_service (@rev Z) "ACE") empty_world)
     = Ok (JInt 50, [50; 100]).
Proof.
  split.
  - eexists. split; vm_compute; reflexivity.
  - vm_compute. reflexivity.
Qed.

(** C2, amended. After a run of [scrape_project] in which the last unit
    to save a checkpoint is the one of the final planned page (as when
    every page yields records and the final page completes last), with
    the remote total unchanged and the checkpoint file not touched in
    between, a second run plans no page, returns no record and sends no
    request beyond the one that reads the total. *)
Theorem resume_after_final_page (net : network)
    (as_completed : list Z -> list Z) (project_key : string) (w : world)
    (total start : Z) (pages : list Z) (final : Z) :
  result_of (get_total_issues net project_key) w = Ok (JInt total) ->
  total <> 0 ->
  result_of (load_checkpoint project_key) w = Ok (JInt start) ->
  plan total start MAX_RESULTS = Ok pages ->
  last pages = Some final ->
  last (List.filter (unit_saves net project_key) (as_completed pages)) = Some final ->
  let w' := world_after (scrape_project net as_completed project_key) w in
  (exists records,
     result_of (scrape_project net as_completed project_key) w = Ok records)
  /\ result_of (planned_pages project_key (JInt total)) w'
     = Ok (JInt (final + MAX_RESULTS), [])
  /\ forall (net2 : network) (as_completed2 : list Z -> list Z),
       result_of (get_total_issues net2 project_key) w' = Ok (JInt total) ->
       as_completed2 [] = [] ->
       result_of (scrape_project net2 as_completed2 project_key) w' = Ok []
       /\ requests_made
            (events_since w'
               (world_after (scrape_project net2 as_completed2 project_key) w'))
          = requests_made
              (events_since w'
                 (world_after (get_total_issues net2 project_key) w')).
Proof.
  intros Htotal Hnz Hload Hplan Hfinal Hsaved.
  destruct (scrape_project_run net as_completed project_key w total start pages
              Htotal Hnz Hload Hplan) as (records & w1 & Hrun & Hfs & _).
  rewrite Hsaved in Hfs.
  assert (Hge : total <= final + MAX_RESULTS).
  { rewrite plan_positive in Hplan by (unfold MAX_RESULTS; lia).
    injection Hplan as <-.
    apply range_up_last in Hfinal; [exact Hfinal|unfold MAX_RESULTS; lia|lia]. }
  intros w'.
  assert (Hw : w' = w1) by (unfold w', world_after; rewrite Hrun; reflexivity).
  clearbody w'. subst w'.
  split; [|split].
  - exists records. unfold result_of. rewrite Hrun. reflexivity.
  - apply planned_pages_after_save; assumption.
  - intros net2 as_completed2 Htotal2 Hempty.
    destruct (scrape_project_run net2 as_completed2 project_key w1 total
                (final + MAX_RESULTS) [] Htotal2 Hnz
                (load_after_content project_key _ w1 Hfs)
                (plan_past_total total _ Hge))
      as (records2 & w2 & Hrun2 & _ & Hnone).
    destruct (Hnone Hempty) as [-> Hreq].
    unfold result_of, world_after at 1. rewrite Hrun2. cbn [fst snd].
    split; [reflexivity|exact Hreq].
Qed.

Lemma resume_after_final_page_witness :
  let w' := world_after (scrape_project healthy_service id "ACE") empty_world in
  (exists records,
     result_of (scrape_project healthy_service id "ACE") empty_world = Ok records)
  /\ result_of (planned_pages "ACE" (JInt 120)) w' = Ok (JInt (100 + MAX_RESULTS), [])
  /\ forall (net2 : network) (as_completed2 : list Z -> list Z),
       result_of (get_total_issues net2 "ACE") w' = Ok (JInt 120) ->
       as_completed2 [] = [] ->
       result_of (scrape_project net2 as_completed2 "ACE") w' = Ok []
       /\ requests_made
            (events_since w' (world_after (scrape_project net2 as_completed2 "ACE") w'))
          = requests_made
              (events_since w' (world_after (get_total_issues net2 "ACE") w')).
Proof.
  apply (resume_after_final_page healthy_service id "ACE" empty_world
           120 0 [0; 50; 100] 100).
  - reflexivity.
  - lia.
  - reflexivity.
  - reflexivity.
  - reflexivity.
  - vm_compute. reflexivity.
Defined.

(** ** More on the retry loop *)

Lemma py_int_raises s e : py_int s = Raise e -> e = ValueError.
Proof.
  unfold py_int. cbv zeta.
  match goal with
  | |- match ?signed with Some _ => _ | None => _ end = _ -> _ =>
      destruct signed as [z|]; [|congruence]
  end.
  match goal with
  | |- (if ?short then _ else _) = _ -> _ => destruct short; congruence
  end.
Qed.

Lemma progress_updates_app evs1 evs2 :
  progress_updates (evs1 ++ evs2)
  = (progress_updates evs1 + progress_updates evs2)%nat.
Proof. unfold progress_updates. now rewrite flat_map_app, length_app. Qed.

Section RetryLoop.

Variable net : network.
Variable url : string.
Variable params : json.

Ltac shape_ok :=
  split; [reflexivity|];
  split; [reflexivity|];
  split; [reflexivity|];
  split; [intros ? [=]|].

Ltac shape_raise :=
  split; [reflexivity|];
  split; [reflexivity|];
  split; [reflexivity|];
  split; [intros ? [= <-]; split; [reflexivity|]|].

(** Whatever the service answers, one attempt sends one request and
    writes no file; it raises only on a 429 whose Retry-After is not
    usable, and then not a [RequestException]. *)
Lemma attempt_shape attempt :
  0 <= attempt ->
  exists r evs,
    requests_made evs = 1%nat /\ file_writes evs = []
    /\ progress_updates evs = 0%nat
    /\ (forall e, r = Raise e ->
          is_RequestException e = false
          /\ bad_retry_after (net url params attempt) = true)
    /\ forall w, safe_request_attempt net url params attempt w = (r, log evs w).
Proof.
  intros Ha. pose proof (backoff_nonneg attempt Ha) as Hb.
  unfold safe_request_attempt, try_except, mbind, M_bind, print, raise, lift,
    bad_retry_after.
  destruct (net url params attempt) as [status_code header body|msg].
  - destruct (status_code =? 200).
    { exists (Ok (Return body)), [HttpGet url params]. shape_ok.
      intros w. rewrite emit_log. reflexivity. }
    destruct (status_code =? 429).
    + destruct header as [h|].
      * unfold usable_retry_after. destruct (py_int h) as [v|e] eqn:Hh.
        -- destruct ((v <? - SLEEP_MAX) || (SLEEP_MAX <? v)) eqn:Hover.
           { exists (Raise OverflowError),
               [HttpGet url params; Print (RateLimitHit v)].
             shape_raise.
             - apply orb_true_iff in Hover as [H|H]; apply Z.ltb_lt in H;
                 destruct (Z.leb_spec 0 v); destruct (Z.leb_spec v SLEEP_SAFE);
                 try reflexivity; unfold SLEEP_MAX, SLEEP_SAFE in *; lia.
             - intros w. rewrite !emit_log, time_sleep_overflow by exact Hover.
               rewrite log_log. reflexivity. }
           apply orb_false_iff in Hover as [Hlo Hhi].
           apply Z.ltb_ge in Hlo, Hhi.
           destruct (Z.ltb_spec v 0) as [Hneg|Hpos].
           { exists (Raise ValueError),
               [HttpGet url params; Print (RateLimitHit v)].
             shape_raise.
             - destruct (Z.leb_spec 0 v); [lia|reflexivity].
             - intros w. rewrite !emit_log, time_sleep_negative by lia.
               rewrite log_log. reflexivity. }
           exists (Ok Next),
             [HttpGet url params; Print (RateLimitHit v); Sleep v].
           shape_ok. intros w.
           rewrite !emit_log, time_sleep_log by lia.
           unfold mret, M_ret. rewrite !log_log. reflexivity.
        -- apply py_int_raises in Hh as ->.
           exists (Raise ValueError), [HttpGet url params]. shape_raise.
           ++ reflexivity.
           ++ intros w. rewrite emit_log. reflexivity.
      * exists (Ok Next),
          [HttpGet url params; Print (RateLimitHit 60); Sleep 60].
        shape_ok. intros w.
        rewrite !emit_log, time_sleep_log by (unfold SLEEP_MAX; lia).
        unfold mret, M_ret. rewrite !log_log. reflexivity.
    + destruct ((500 <=? status_code) && (status_code <? 600)).
      * eexists (Ok Next), [HttpGet url params; Print _; Sleep _].
        shape_ok. intros w.
        rewrite !emit_log, time_sleep_log by exact Hb.
        unfold mret, M_ret. rewrite !log_log. reflexivity.
      * eexists (Ok (Return JNull)), [HttpGet url params; Print _].
        shape_ok. intros w. rewrite !emit_log.
        unfold mret, M_ret. rewrite !log_log. reflexivity.
  - cbn [is_RequestException].
    eexists (Ok Next), [HttpGet url params; Print _; Sleep _].
    shape_ok. intros w.
    rewrite !emit_log, time_sleep_log by exact Hb.
    unfold mret, M_ret. rewrite !log_log. reflexivity.
Qed.

Lemma attempts_shape (l : list Z) :
  Forall (fun a => 0 <= a) l ->
  exists r evs,
    (requests_made evs <= length l)%nat
    /\ (l <> [] -> (1 <= requests_made evs)%nat)
    /\ file_writes evs = []
    /\ progress_updates evs = 0%nat
    /\ (forall e, r = Raise e ->
          is_RequestException e = false
          /\ exists a, In a l /\ bad_retry_after (net url params a) = true)
    /\ forall w, for_return l (safe_request_attempt net url params)
                   (retries_exhausted url) w = (r, log evs w).
Proof.
  induction l as [|a l IH]; intros Hl.
  - exists (Ok JNull), [Print (FailedAfterRetries url)].
    split; [cbn; lia|]. split; [congruence|]. split; [reflexivity|].
    split; [reflexivity|]. split; [intros ? [=]|]. reflexivity.
  - apply Forall_cons in Hl as [Ha Hl].
    destruct (attempt_shape a Ha)
      as (r1 & evs1 & Hreq1 & Hnw1 & Hpr1 & Hv1 & Hrun1).
    destruct (IH Hl) as (r2 & evs2 & Hreq2 & _ & Hnw2 & Hpr2 & Hv2 & Hrun2).
    destruct r1 as [[|v]|e].
    + exists r2, (evs1 ++ evs2).
      rewrite requests_made_app, file_writes_app, progress_updates_app,
        Hreq1, Hnw1, Hnw2, Hpr1, Hpr2.
      cbn [length]. split; [lia|]. split; [lia|]. split; [reflexivity|].
      split; [reflexivity|]. split.
      * intros e He. destruct (Hv2 e He) as (Hre & a' & Hin & Hbad).
        split; [exact Hre|]. exists a'. split; [right; exact Hin|exact Hbad].
      * intros w. cbn [for_return].
        erewrite bind_ok by apply Hrun1. cbv beta iota.
        rewrite Hrun2, log_log. reflexivity.
    + exists (Ok v), evs1. rewrite Hreq1, Hnw1, Hpr1. cbn [length].
      split; [lia|]. split; [lia|]. split; [reflexivity|].
      split; [reflexivity|]. split; [intros ? [=]|].
      intros w. cbn [for_return]. erewrite bind_ok by apply Hrun1. reflexivity.
    + exists (Raise e), evs1. rewrite Hreq1, Hnw1, Hpr1. cbn [length].
      split; [lia|]. split; [lia|]. split; [reflexivity|]. split; [reflexivity|].
      split.
      * intros e' [= <-]. destruct (Hv1 e eq_refl) as [Hre Hbad].
        split; [exact Hre|]. exists a. split; [left; reflexivity|exact Hbad].
      * intros w. cbn [for_return]. unfold mbind, M_bind.
        rewrite Hrun1. reflexivity.
Qed.

Lemma one_to_five_nonneg : Forall (fun a => 0 <= a) [1; 2; 3; 4; 5].
Proof. repeat constructor; lia. Qed.




Lemma pause_of_server_trouble j :
  server_trouble (net url params j) = true ->
  pause_after j (net url params j) = Z.min (RETRY_BACKOFF * j) 60
  /\ retried (net url params j) = true.
Proof.
  unfold server_trouble, pause_after, retried.
  destruct (net url params j) as [status_code header body|msg]; [|auto].
  intros H. rewrite H, orb_true_r. split; [|reflexivity].
  destruct (Z.eqb_spec status_code 429) as [->|]; [discriminate|reflexivity].
Qed.

(** X3. When all five attempts are retried, [safe_request] gives up and
    returns [None] after five requests and five pauses (it also pauses
    after the last attempt), the last thing it does being the print of the
    failure.  When the five attempts are 5xx answers or transport failures
    the pauses are 5, 10, 15, 20 and 25 seconds: the cap of 60 is never
    reached. *)
Theorem safe_request_exhausted (w : world) :
  (forall j, 1 <= j <= MAX_RETRIES -> retried (net url params j) = true) ->
  let evs := events_since w (world_after (safe_request net url params) w) in
  result_of (safe_request net url params) w = Ok JNull
  /\ requests_made evs = 5%nat
  /\ length (sleeps evs) = 5%nat
  /\ last evs = Some (Print (FailedAfterRetries url))
  /\ ((forall j, 1 <= j <= MAX_RETRIES -> server_trouble (net url params j) = true) ->
      sleeps evs = [5; 10; 15; 20; 25]).
Proof.
  intros Hall.
  destruct (retried_prefix net url params [1; 2; 3; 4; 5] [] w)
    as (evs & Hsl & Hreq & Hloop).
  { repeat constructor; try lia; apply Hall; unfold MAX_RETRIES; lia. }
  assert (Hcall : safe_request net url params w
                  = (Ok JNull, log (evs ++ [Print (FailedAfterRetries url)]) w)).
  { unfold safe_request. rewrite attempts_are_one_to_five.
    unfold mbind at 1, M_bind at 1, lift at 1.
    change [1; 2; 3; 4; 5] with ([1; 2; 3; 4; 5] ++ []) at 1.
    rewrite Hloop. cbn [for_return]. unfold retries_exhausted.
    erewrite bind_ok by apply print_log. unfold mret, M_ret.
    rewrite log_log. reflexivity. }
  cbv zeta. unfold result_of, world_after. rewrite Hcall. cbn [fst snd].
  rewrite events_since_log, sleeps_app, requests_made_app, last_app, Hsl, Hreq.
  cbn [sleeps flat_map app length map requests_made last].
  rewrite ?app_nil_r.
  split; [reflexivity|]. split; [reflexivity|]. split; [reflexivity|].
  split; [reflexivity|].
  intros Htrouble.
  assert (Hp : forall j, 1 <= j <= 5 ->
                 pause_after j (net url params j) = 5 * j).
  { intros j Hj.
    destruct (pause_of_server_trouble j) as [-> _];
      [apply Htrouble; unfold MAX_RETRIES; lia|].
    unfold RETRY_BACKOFF. lia. }
  rewrite !Hp by lia. reflexivity.
Qed.

(** X4. A 429 whose Retry-After header [int] or [time.sleep] rejects
    makes [safe_request] raise at that attempt: the [ValueError] of [int]
    when the header is not an integer literal (an HTTP date, say, or a
    number of more than 4300 digits), the [OverflowError] of [time.sleep]
    when the integer is beyond 9223372036 either way, its [ValueError]
    when the integer is negative.  The exception is not a
    [RequestException], so nothing in the function catches it and no
    further request is sent. *)
Theorem safe_request_bad_retry_after (w : world) (a : Z) (h : string)
    (body : json) (e : exn) :
  1 <= a <= MAX_RETRIES ->
  (forall j, 1 <= j < a -> retried (net url params j) = true) ->
  net url params a = Response 429 (Some h) body ->
  retry_after_error h = Some e ->
  result_of (safe_request net url params) w = Raise e
  /\ is_RequestException e = false
  /\ requests_made (events_since w (world_after (safe_request net url params) w))
     = Z.to_nat a.
Proof.
  intros Ha Hprev Hnet Hbad.
  destruct (safe_request_reaches net url params w a Ha Hprev)
    as (evs & l2 & _ & Hreq & Hrun).
  assert (Hstep : exists evs1,
             requests_made evs1 = 1%nat /\ is_RequestException e = false
             /\ safe_request_attempt net url params a (log evs w)
                = (Raise e, log evs1 (log evs w))).
  { unfold safe_request_attempt, try_except, mbind, M_bind, print.
    rewrite emit_log, Hnet. cbn [Z.eqb Pos.eqb]. unfold lift at 1.
    unfold retry_after_error in Hbad.
    destruct (py_int h) as [v|e'] eqn:Hint.
    - exists [HttpGet url params; Print (RateLimitHit v)]. split; [reflexivity|].
      rewrite emit_log.
      destruct ((v <? - SLEEP_MAX) || (SLEEP_MAX <? v)) eqn:Hover.
      + injection Hbad as <-. split; [reflexivity|].
        rewrite time_sleep_overflow by exact Hover.
        cbn. rewrite log_log. reflexivity.
      + apply orb_false_iff in Hover as [Hlo Hhi]. apply Z.ltb_ge in Hlo, Hhi.
        destruct (Z.ltb_spec v 0); [|discriminate]. injection Hbad as <-.
        split; [reflexivity|].
        rewrite time_sleep_negative by lia.
        cbn. rewrite log_log. reflexivity.
    - injection Hbad as <-. apply py_int_raises in Hint as ->.
      exists [HttpGet url params]. repeat split. }
  destruct Hstep as (evs1 & Hreq1 & Hre & Hstep).
  assert (Hcall : safe_request net url params w
                  = (Raise e, log (evs ++ evs1) w)).
  { rewrite Hrun. cbn [for_return]. unfold mbind, M_bind.
    rewrite Hstep, log_log. reflexivity. }
  unfold result_of, world_after. rewrite Hcall. cbn [fst snd].
  rewrite events_since_log, requests_made_app, Hreq, Hreq1.
  split; [reflexivity|]. split; [exact Hre|lia].
Qed.

End RetryLoop.


Lemma safe_request_exhausted_witness :
  result_of (safe_request down_service BASE_URL JNull) empty_world = Ok JNull
  /\ sleeps (events_since empty_world
               (world_after (safe_request down_service BASE_URL JNull) empty_world))
     = [5; 10; 15; 20; 25].
Proof.
  destruct (safe_request_exhausted down_service BASE_URL JNull empty_world)
    as (Hres & _ & _ & _ & Hsleeps).
  - intros j Hj. reflexivity.
  - split; [exact Hres|]. apply Hsleeps. intros j Hj. reflexivity.
Defined.

Lemma safe_request_bad_retry_after_witness :
  (result_of (safe_request patient_service BASE_URL JNull) empty_world
   = Raise OverflowError
   /\ is_RequestException OverflowError = false
   /\ requests_made (events_since empty_world
                       (world_after (safe_request patient_service BASE_URL JNull)
                          empty_world)) = Z.to_nat 1)
  /\ (result_of (safe_request negative_service BASE_URL JNull) empty_world
      = Raise ValueError
      /\ is_RequestException ValueError = false
      /\ requests_made (events_since empty_world
                          (world_after (safe_request negative_service BASE_URL JNull)
                             empty_world)) = Z.to_nat 1).
Proof.
  split.
  - apply (safe_request_bad_retry_after patient_service BASE_URL JNull empty_world 1
             "99999999999999999999" JNull OverflowError).
    + unfold MAX_RETRIES. lia.
    + intros j Hj. lia.
    + reflexivity.
    + reflexivity.
  - apply (safe_request_bad_retry_after negative_service BASE_URL JNull empty_world 1
             "-5" JNull ValueError).
    + unfold MAX_RETRIES. lia.
    + intros j Hj. lia.
    + reflexivity.
    + reflexivity.
Defined.

(** ** More on the checkpoint store *)

Section CheckpointFile.

Variable project_key : string.
Variable w : world.

(** X5. [load_checkpoint] falls back to 0 in three cases: no checkpoint
    file (nothing printed, the world is the same), a file whose text is
    not JSON (the warning is printed, once), and a JSON object that has no
    ["last_startAt"] key (nothing printed).  A file whose bytes cannot be
    decoded is not among them: reading it raises [UnicodeDecodeError],
    which is not a [JSONDecodeError], so the handler does not catch it and
    [load_checkpoint] raises. *)
Theorem load_checkpoint_fallbacks :
  (files w !! checkpoint_file project_key = None ->
   load_checkpoint project_key w = (Ok (JInt 0), w))
  /\ (forall f, files w !! checkpoint_file project_key = Some f ->
        not_json f = true ->
        load_checkpoint project_key w
        = (Ok (JInt 0), log [Print (CheckpointCorrupted project_key)] w))
  /\ (forall kv, files w !! checkpoint_file project_key = Some (JsonText (JObj kv)) ->
        assoc_get kv "last_startAt" = None ->
        load_checkpoint project_key w = (Ok (JInt 0), w))
  /\ (files w !! checkpoint_file project_key = Some Undecodable ->
      load_checkpoint project_key w = (Raise UnicodeDecodeError, w)).
Proof.
  unfold load_checkpoint, mbind, M_bind, path_exists, try_except, json_load,
    print, emit, mret, M_ret, lift, log.
  split; [|split; [|split]].
  - intros Hf. rewrite Hf. reflexivity.
  - intros f Hf Hbad. rewrite Hf. cbn. rewrite Hf.
    destruct f as [j|[|j [|j' l]]| |]; try discriminate; reflexivity.
  - intros kv Hf Hkey. rewrite Hf. cbn. rewrite Hf. cbn. rewrite Hkey.
    reflexivity.
  - intros Hf. rewrite Hf. cbn. rewrite Hf. reflexivity.
Qed.

(** X6. [load_checkpoint] only reads: whatever the checkpoint file holds,
    and also when the call raises, the files and [results] are as before,
    no file is written and no request is sent; all it may do is print. *)
Theorem load_checkpoint_read_only :
  let w' := world_after (load_checkpoint project_key) w in
  files w' = files w /\ results w' = results w
  /\ file_writes (events_since w w') = []
  /\ requests_made (events_since w w') = 0%nat
  /\ sleeps (events_since w w') = [].
Proof.
  cbv zeta. unfold world_after.
  unfold load_checkpoint, mbind, M_bind, path_exists, try_except, json_load,
    lift, print, emit, mret, M_ret, events_since.
  destruct (files w !! checkpoint_file project_key) as [[j|[|j [|j' l]]| |]|] eqn:Hf;
    cbn; rewrite ?Hf; cbn; rewrite ?drop_app_length, ?drop_all;
    try (repeat split; reflexivity).
  - destruct j; cbn; rewrite ?drop_all; repeat split; reflexivity.
  - destruct j; cbn; rewrite ?drop_all; repeat split; reflexivity.
Qed.


End CheckpointFile.

Lemma load_checkpoint_fallbacks_witness :
  load_checkpoint "ACE" empty_world = (Ok (JInt 0), empty_world)
  /\ load_checkpoint "ACE" world_with_garbled_checkpoint
     = (Ok (JInt 0),
        log [Print (CheckpointCorrupted "ACE")] world_with_garbled_checkpoint)
  /\ load_checkpoint "ACE" world_with_undecodable_checkpoint
     = (Raise UnicodeDecodeError, world_with_undecodable_checkpoint).
Proof.
  split; [|split].
  - apply (proj1 (load_checkpoint_fallbacks "ACE" empty_world)). reflexivity.
  - apply (proj1 (proj2 (load_checkpoint_fallbacks "ACE"
                           world_with_garbled_checkpoint)) Garbled);
      reflexivity.
  - apply (proj2 (proj2 (proj2 (load_checkpoint_fallbacks "ACE"
                                  world_with_undecodable_checkpoint)))).
    reflexivity.
Defined.


(** ** Runs that fetch nothing *)

Lemma requests_made_log w evs :
  requests_made (events_since w (log evs w)) = requests_made evs.
Proof. now rewrite events_since_log. Qed.

(** [get_total_issues] returns the same value in every world and writes no
    file. *)
Lemma get_total_issues_run net project_key w :
  exists evs,
    file_writes evs = []
    /\ forall w', get_total_issues net project_key w'
                  = (result_of (get_total_issues net project_key) w, log evs w').
Proof.
  destruct (io_only_get_total_issues net project_key) as (r & evs & Hnw & Hrun).
  exists evs. split; [exact Hnw|]. intros w'.
  unfold result_of. rewrite !Hrun. reflexivity.
Qed.

(** What [load_checkpoint] does is the same in all worlds that have the
    same files. *)
Lemma load_checkpoint_run_files project_key w :
  exists evs,
    file_writes evs = [] /\ requests_made evs = 0%nat
    /\ forall w', files w' = files w ->
         load_checkpoint project_key w'
         = (result_of (load_checkpoint project_key) w, log evs w').
Proof.
  unfold result_of.
  unfold load_checkpoint, mbind, M_bind, path_exists, try_except, json_load,
    lift, print, emit, mret, M_ret.
  destruct (files w !! checkpoint_file project_key) as [[j|[|j [|j' l]]| |]|] eqn:Hf;
    cbn; rewrite ?Hf; cbn.
  - exists []. split; [reflexivity|]. split; [reflexivity|].
    intros w' Hw. rewrite Hw, Hf. cbn. rewrite Hw, Hf, log_nil.
    destruct j; reflexivity.
  - exists [Print (CheckpointCorrupted project_key)].
    split; [reflexivity|]. split; [reflexivity|].
    intros w' Hw. rewrite Hw, Hf. cbn. rewrite Hw, Hf. reflexivity.
  - exists []. split; [reflexivity|]. split; [reflexivity|].
    intros w' Hw. rewrite Hw, Hf. cbn. rewrite Hw, Hf, log_nil.
    destruct j; reflexivity.
  - exists [Print (CheckpointCorrupted project_key)].
    split; [reflexivity|]. split; [reflexivity|].
    intros w' Hw. rewrite Hw, Hf. cbn. rewrite Hw, Hf. reflexivity.
  - exists [Print (CheckpointCorrupted project_key)].
    split; [reflexivity|]. split; [reflexivity|].
    intros w' Hw. rewrite Hw, Hf. cbn. rewrite Hw, Hf. reflexivity.
  - exists []. split; [reflexivity|]. split; [reflexivity|].
    intros w' Hw. rewrite Hw, Hf. cbn. rewrite Hw, Hf, log_nil. reflexivity.
  - exists []. split; [reflexivity|]. split; [reflexivity|].
    intros w' Hw. rewrite Hw, Hf. cbn. rewrite log_nil. reflexivity.
Qed.

(** [planned_pages] reads the checkpoint and computes: it writes no file
    and sends no request; what it returns depends on the files only. *)
Lemma planned_pages_run project_key total w :
  exists evs,
    file_writes evs = [] /\ requests_made evs = 0%nat
    /\ forall w', files w' = files w ->
         planned_pages project_key total w'
         = (result_of (planned_pages project_key total) w, log evs w').
Proof.
  destruct (load_checkpoint_run_files project_key w) as (evs & Hnw & Hreq & Hrun).
  exists evs. split; [exact Hnw|]. split; [exact Hreq|].
  intros w' Hfiles.
  unfold result_of, planned_pages, mbind, M_bind.
  rewrite (Hrun w' Hfiles), (Hrun w eq_refl).
  destruct (result_of (load_checkpoint project_key) w) as [v|e]; [|reflexivity].
  unfold lift.
  destruct (outcome_bind Z (list Z)
              (fun start =>
                 outcome_bind Z (list Z) (fun stop => plan stop start MAX_RESULTS)
                   (py_index total))
              (py_index v)); reflexivity.
Qed.

Section SkippedRuns.

Variable net : network.
Variable as_completed : list Z -> list Z.
Variable project_key : string.
Variable w : world.

(** A run whose total compares equal to 0 stops after the two prints. *)
Lemma scrape_project_zero_total_run (total : json) evs :
  (forall w', get_total_issues net project_key w' = (Ok total, log evs w')) ->
  py_eq_zero total = true ->
  scrape_project net as_completed project_key w
  = (Ok [],
     log ([Print (ScraperInitiated project_key)] ++ evs
          ++ [Print (TotalIssuesFound project_key total);
              Print (NoIssuesToScrape project_key)]) w).
Proof.
  intros Hrun Hzero. unfold scrape_project.
  erewrite bind_ok by apply print_log.
  erewrite bind_ok by apply Hrun.
  erewrite bind_ok by apply print_log.
  rewrite Hzero.
  erewrite bind_ok by apply print_log.
  unfold mret, M_ret. rewrite !log_log, <- ?app_assoc. reflexivity.
Qed.

(** X8. When the request for the total fails ([safe_request] returns
    [None]), or its body has no ["total"], or the total is 0,
    [scrape_project] returns the empty list and touches no file: the
    checkpoint is not read and neither output file is written, so the
    outputs of an earlier run stay as they are.  The only requests are
    those of the call for the total. *)
Theorem collection_skipped (data : json) :
  result_of (safe_request net BASE_URL (count_params project_key)) w = Ok data ->
  (truthy data = false
   \/ exists kv, data = JObj kv
                 /\ match assoc_get kv "total" with
                    | None => True
                    | Some t => py_eq_zero t = true
                    end) ->
  let w' := world_after (scrape_project net as_completed project_key) w in
  result_of (scrape_project net as_completed project_key) w = Ok []
  /\ files w' = files w /\ results w' = results w
  /\ file_writes (events_since w w') = []
  /\ requests_made (events_since w w')
     = requests_made
         (events_since w
            (world_after (safe_request net BASE_URL (count_params project_key)) w)).
Proof.
  intros Hdata Hcase.
  destruct (io_only_safe_request net BASE_URL (count_params project_key))
    as (r & evs & Hnw & Hrun).
  assert (r = Ok data) as ->.
  { unfold result_of in Hdata. rewrite Hrun in Hdata. exact Hdata. }
  assert (Htotal : exists total,
             py_eq_zero total = true
             /\ forall w', get_total_issues net project_key w'
                           = (Ok total, log evs w')).
  { unfold get_total_issues. fold (count_params project_key).
    destruct Hcase as [Hfalsy|(kv & -> & Hkey)].
    - exists (JInt 0). split; [reflexivity|]. intros w'.
      erewrite bind_ok by apply Hrun. rewrite Hfalsy. reflexivity.
    - destruct kv as [|p kv].
      + exists (JInt 0). split; [reflexivity|]. intros w'.
        erewrite bind_ok by apply Hrun. reflexivity.
      + exists (match assoc_get (p :: kv) "total" with
                | Some t => t
                | None => JInt 0
                end).
        split; [destruct (assoc_get (p :: kv) "total"); [exact Hkey|reflexivity]|].
        intros w'. erewrite bind_ok by apply Hrun. reflexivity. }
  destruct Htotal as (total & Hzero & HrunT).
  cbv zeta. unfold result_of, world_after.
  rewrite (scrape_project_zero_total_run total evs HrunT Hzero), Hrun.
  cbn [fst snd files results log].
  rewrite !events_since_log, !file_writes_app, !requests_made_app, Hnw.
  repeat split. cbn. lia.
Qed.

(** A run whose plan cannot be computed ends with the exception, before
    anything is fetched or written. *)
Lemma scrape_project_plan_fails_run (total : json) (e : exn) evs evsL :
  (forall w', get_total_issues net project_key w' = (Ok total, log evs w')) ->
  py_eq_zero total = false ->
  (forall w', files w' = files w ->
     planned_pages project_key total w' = (Raise e, log evsL w')) ->
  scrape_project net as_completed project_key w
  = (Raise e,
     log ([Print (ScraperInitiated project_key)] ++ evs
          ++ [Print (TotalIssuesFound project_key total)] ++ evsL) w).
Proof.
  intros Hrun Hnz Hplan. unfold scrape_project.
  erewrite bind_ok by apply print_log.
  erewrite bind_ok by apply Hrun.
  erewrite bind_ok by apply print_log.
  rewrite Hnz. unfold mbind at 1, M_bind at 1.
  rewrite Hplan by reflexivity.
  rewrite !log_log, <- ?app_assoc. reflexivity.
Qed.

(** X9. When the total is not 0 but the plan cannot be computed, because
    [load_checkpoint] raises or because the stored checkpoint or the total
    is not an integer, [scrape_project] ends with that exception before
    any page is requested and before any file is written. *)
Theorem scrape_project_plan_fails (total : json) (e : exn) :
  result_of (get_total_issues net project_key) w = Ok total ->
  py_eq_zero total = false ->
  result_of (planned_pages project_key total) w = Raise e ->
  let w' := world_after (scrape_project net as_completed project_key) w in
  result_of (scrape_project net as_completed project_key) w = Raise e
  /\ files w' = files w
  /\ file_writes (events_since w w') = []
  /\ requests_made (events_since w w')
     = requests_made
         (events_since w (world_after (get_total_issues net project_key) w)).
Proof.
  intros Htotal Hnz Hplan.
  destruct (get_total_issues_run net project_key w) as (evs & Hnw & Hrun).
  rewrite Htotal in Hrun.
  destruct (planned_pages_run project_key total w) as (evsL & HnwL & HreqL & HrunL).
  rewrite Hplan in HrunL.
  cbv zeta. unfold result_of, world_after.
  rewrite (scrape_project_plan_fails_run total e evs evsL Hrun Hnz HrunL), Hrun.
  cbn [fst snd files log].
  rewrite !events_since_log, !file_writes_app, !requests_made_app, Hnw, HnwL, HreqL.
  repeat split. cbn. lia.
Qed.

End SkippedRuns.

Lemma collection_skipped_witness :
  result_of (scrape_project unknown_project_service id "ACE") empty_world = Ok []
  /\ files (world_after (scrape_project unknown_project_service id "ACE") empty_world)
     = files empty_world.
Proof.
  destruct (collection_skipped unknown_project_service id "ACE" empty_world JNull)
    as (Hres & Hfiles & _).
  - reflexivity.
  - left. reflexivity.
  - split; [exact Hres|exact Hfiles].
Defined.

Lemma scrape_project_plan_fails_witness :
  result_of (scrape_project healthy_service id "ACE") world_with_string_checkpoint
  = Raise TypeError
  /\ file_writes (events_since world_with_string_checkpoint
                    (world_after (scrape_project healthy_service id "ACE")
                       world_with_string_checkpoint)) = [].
Proof.
  destruct (scrape_project_plan_fails healthy_service id "ACE"
              world_with_string_checkpoint (JInt 120) TypeError)
    as (Hres & _ & Hnw & _).
  - reflexivity.
  - reflexivity.
  - reflexivity.
  - split; [exact Hres|exact Hnw].
Defined.

(** X10. [main] has no handler around [scrape_project]: when the run of
    the first project, ACCUMULO, ends with an exception (its plan cannot be
    computed), [main] ends with the same exception and the projects ACE
    and AMQCPP are never started: the only requests sent are those for
    the total of ACCUMULO, and no file is written. *)
Theorem main_stops_at_first_failure (net : network)
    (as_completed : list Z -> list Z) (w : world) (total : json) (e : exn) :
  result_of (get_total_issues net "ACCUMULO") w = Ok total ->
  py_eq_zero total = false ->
  result_of (planned_pages "ACCUMULO" total) w = Raise e ->
  let w' := world_after (main net as_completed) w in
  result_of (main net as_completed) w = Raise e
  /\ files w' = files w
  /\ file_writes (events_since w w') = []
  /\ requests_made (events_since w w')
     = requests_made
         (events_since w (world_after (get_total_issues net "ACCUMULO") w)).
Proof.
  intros Htotal Hnz Hplan.
  destruct (get_total_issues_run net "ACCUMULO" w) as (evs & Hnw & Hrun).
  rewrite Htotal in Hrun.
  destruct (planned_pages_run "ACCUMULO" total w) as (evsL & HnwL & HreqL & HrunL).
  rewrite Hplan in HrunL.
  pose proof (scrape_project_plan_fails_run net as_completed "ACCUMULO" w
                total e evs evsL Hrun Hnz HrunL) as Hscrape.
  assert (Hmain : main net as_completed w
                  = (Raise e,
                     log ([Print (ScraperInitiated "ACCUMULO")] ++ evs
                          ++ [Print (TotalIssuesFound "ACCUMULO" total)] ++ evsL) w)).
  { unfold main. cbn [for_each].
    unfold mbind at 1, M_bind at 1. unfold mbind at 1, M_bind at 1.
    rewrite Hscrape. reflexivity. }
  cbv zeta. unfold result_of, world_after. rewrite Hmain, Hrun.
  cbn [fst snd files log].
  rewrite !events_since_log, !file_writes_app, !requests_made_app, Hnw, HnwL, HreqL.
  repeat split. cbn. lia.
Qed.

Lemma main_stops_at_first_failure_witness :
  result_of (main healthy_service id) world_with_accumulo_list_checkpoint
  = Raise AttributeError
  /\ requests_made (events_since world_with_accumulo_list_checkpoint
                      (world_after (main healthy_service id)
                         world_with_accumulo_list_checkpoint))
     = requests_made
         (events_since world_with_accumulo_list_checkpoint
            (world_after (get_total_issues healthy_service "ACCUMULO")
               world_with_accumulo_list_checkpoint)).
Proof.
  destruct (main_stops_at_first_failure healthy_service id
              world_with_accumulo_list_checkpoint (JInt 120) AttributeError)
    as (Hres & _ & _ & Hreq).
  - reflexivity.
  - reflexivity.
  - reflexivity.
  - split; [exact Hres|exact Hreq].
Defined.

(** ** [transform_issue] *)

Lemma py_get_obj kv k default :
  py_get (JObj kv) k default = Ok (get_or kv k default).
Proof. reflexivity. Qed.

Lemma py_get_ok d k default v :
  py_get d k default = Ok v -> exists kv, d = JObj kv /\ v = get_or kv k default.
Proof. destruct d; try discriminate. intros [= <-]. eauto. Qed.

Lemma py_get_raise d k default e :
  py_get d k default = Raise e -> e = AttributeError /\ is_obj d = false.
Proof. destruct d; try discriminate; intros [= <-]; auto. Qed.

(** The comprehension over the comments succeeds exactly on readable
    comments, and keeps the stripped bodies that are not falsy. *)
Lemma comment_bodies_readable (comments_data : list json) :
  if forallb readable_comment comments_data
  then comment_bodies comments_data = Ok (kept_bodies comments_data)
  else exists e, comment_bodies comments_data = Raise e.
Proof.
  induction comments_data as [|c rest IH]; [reflexivity|].
  cbn [forallb comment_bodies kept_bodies flat_map].
  fold (kept_bodies rest).
  destruct c as [| | | | |kv]; cbn [readable_comment andb py_get mbind outcome_bind];
    eauto.
  unfold get_or.
  destruct (assoc_get kv "body") as [body|].
  - destruct body as [|b|z|s|l|o]; cbn [truthy negb orb andb is_str].
    + exact IH.
    + destruct b; cbn [negb orb andb py_strip_method outcome_bind]; eauto.
    + destruct (z =? 0); cbn [negb orb andb py_strip_method outcome_bind]; eauto.
    + rewrite orb_true_r. cbn [andb].
      destruct (String.eqb s EmptyString); cbn [negb py_strip_method outcome_bind].
      * exact IH.
      * destruct (forallb readable_comment rest).
        -- rewrite IH. reflexivity.
        -- destruct IH as [e ->]. eauto.
    + destruct l; cbn [negb orb andb py_strip_method outcome_bind]; eauto.
    + destruct o; cbn [negb orb andb py_strip_method outcome_bind]; eauto.
  - cbn [truthy negb orb andb]. exact IH.
Qed.

Lemma get_or_truthy kv k default :
  truthy (get_or kv k JNull) = true -> get_or kv k default = get_or kv k JNull.
Proof. unfold get_or. destruct (assoc_get kv k); [reflexivity|discriminate]. Qed.

(** [transform_issue] succeeds exactly on the readable issues. *)
Lemma transforms_readable issue : transforms issue = readable_issue issue.
Proof.
  unfold transforms, transform_issue, readable_issue.
  destruct issue as [| | | | |top]; try reflexivity.
  rewrite !py_get_obj. cbn [mbind outcome_bind].
  destruct (get_or top "fields" (JObj [])) as [| | | | |f]; try reflexivity.
  rewrite !py_get_obj. cbn [mbind outcome_bind].
  destruct (get_or f "project" (JObj [])) as [| | | | |project]; try reflexivity.
  rewrite py_get_obj. cbn [mbind outcome_bind is_obj andb].
  destruct (get_or f "status" (JObj [])) as [| | | | |status]; try reflexivity.
  rewrite py_get_obj. cbn [mbind outcome_bind is_obj andb].
  destruct (get_or f "reporter" (JObj [])) as [| | | | |reporter]; try reflexivity.
  rewrite py_get_obj. cbn [mbind outcome_bind is_obj andb].
  destruct (truthy (get_or f "assignee" JNull)) eqn:Hassignee; cbn [negb orb].
  - rewrite (get_or_truthy f "assignee" (JObj []) Hassignee).
    destruct (get_or f "assignee" JNull) as [| | | | |assignee]; try reflexivity.
    rewrite py_get_obj. cbn [mbind outcome_bind is_obj andb].
    destruct (get_or f "priority" (JObj [])) as [| | | | |priority]; try reflexivity.
    rewrite py_get_obj. cbn [mbind outcome_bind is_obj andb].
    destruct (get_or f "comment" (JObj [])) as [| | | | |comment]; try reflexivity.
    rewrite py_get_obj. cbn [mbind outcome_bind is_obj andb].
    destruct (py_iter (get_or comment "comments" (JArr []))) as [items|e];
      [|reflexivity].
    cbn [mbind outcome_bind].
    pose proof (comment_bodies_readable items) as Hcomments.
    destruct (forallb readable_comment items);
      [rewrite Hcomments|destruct Hcomments as [e ->]; reflexivity].
    cbn [outcome_bind andb]. unfold py_or.
    destruct (truthy (get_or f "description" JNull)) eqn:Hd; [|reflexivity].
    destruct (get_or f "description" JNull); reflexivity.
  - cbn [mbind outcome_bind is_obj andb].
    destruct (get_or f "priority" (JObj [])) as [| | | | |priority]; try reflexivity.
    rewrite py_get_obj. cbn [mbind outcome_bind is_obj andb].
    destruct (get_or f "comment" (JObj [])) as [| | | | |comment]; try reflexivity.
    rewrite py_get_obj. cbn [mbind outcome_bind is_obj andb].
    destruct (py_iter (get_or comment "comments" (JArr []))) as [items|e];
      [|reflexivity].
    cbn [mbind outcome_bind].
    pose proof (comment_bodies_readable items) as Hcomments.
    destruct (forallb readable_comment items);
      [rewrite Hcomments|destruct Hcomments as [e ->]; reflexivity].
    cbn [outcome_bind andb]. unfold py_or.
    destruct (truthy (get_or f "description" JNull)) eqn:Hd; [|reflexivity].
    destruct (get_or f "description" JNull); reflexivity.
Qed.

(** X11. [transform_issue] returns a record exactly for the readable
    issues: an object whose fields (if any) are an object; whose project,
    status, reporter and priority are objects or absent; whose assignee is
    an object or falsy or absent; whose comment field is an object (or
    absent) holding a list of readable comments; and whose description is a
    string or falsy or absent.  On every other issue it raises. *)
Theorem transform_issue_readable (issue : json) :
  (readable_issue issue = true -> exists record, transform_issue issue = Ok record)
  /\ (readable_issue issue = false -> exists e, transform_issue issue = Raise e).
Proof.
  pose proof (transforms_readable issue) as H. unfold transforms in H.
  destruct (transform_issue issue) as [record|e]; split; intros Hr;
    try (rewrite Hr in H; discriminate); eauto.
Qed.

Lemma transform_issue_readable_witness :
  (exists record,
     transform_issue (sample_issue "ACE-1" [("assignee", JNull)]) = Ok record)
  /\ (exists e,
        transform_issue (sample_issue "ACE-7" [("reporter", JNull)]) = Raise e).
Proof.
  split.
  - apply (proj1 (transform_issue_readable
                    (sample_issue "ACE-1" [("assignee", JNull)]))).
    reflexivity.
  - apply (proj2 (transform_issue_readable
                    (sample_issue "ACE-7" [("reporter", JNull)]))).
    reflexivity.
Defined.

(** X12. The comprehension over the comments keeps, in order, the stripped
    body of every comment whose body is a non-empty string (a body made of
    whitespace only is kept, as the empty string) and drops the comments
    whose body is absent or falsy; it raises when a comment is not an
    object or has a body that is neither falsy nor a string. *)
Theorem comment_bodies_kept (comments_data : list json) :
  (forallb readable_comment comments_data = true ->
   comment_bodies comments_data = Ok (kept_bodies comments_data)
   /\ (length (kept_bodies comments_data) <= length comments_data)%nat)
  /\ (forallb readable_comment comments_data = false ->
      exists e, comment_bodies comments_data = Raise e).
Proof.
  pose proof (comment_bodies_readable comments_data) as H.
  split; intros Hr; rewrite Hr in H; [|exact H].
  split; [exact H|]. clear.
  induction comments_data as [|c rest IH]; [reflexivity|].
  cbn [kept_bodies flat_map]. fold (kept_bodies rest).
  rewrite length_app. cbn [length].
  destruct c as [| | | | |kv]; cbn [length]; try lia.
  destruct (get_or kv "body" JNull); cbn [length]; try lia.
  destruct (String.eqb s EmptyString); cbn [length]; lia.
Qed.

Lemma comment_bodies_kept_witness :
  comment_bodies [JObj [("body", JStr "  first ")]; JObj [];
                  JObj [("body", JStr " ")]; JObj [("body", JNull)]]
  = Ok ["first"; EmptyString]%string.
Proof.
  apply (proj1 (proj1 (comment_bodies_kept
                         [JObj [("body", JStr "  first ")]; JObj [];
                          JObj [("body", JStr " ")]; JObj [("body", JNull)]])
                  eq_refl)).
Defined.

Ltac steps_ok H :=
  repeat match type of H with
         | outcome_bind _ _ _ ?m = Ok _ =>
             let step := fresh "Hstep" in
             destruct m eqn:step; cbn [outcome_bind] in H; [|discriminate H]
         end.

(** X13. Whenever [transform_issue] returns, it returns an object with
    the same fourteen keys in the same order; its description and text are
    strings, its comments a list of strings, and its derived tasks an
    object with the three keys summarization, classification and qna, each
    a string. *)
Theorem transform_issue_schema (issue record : json) :
  transform_issue issue = Ok record ->
  exists kv tasks comments,
    record = JObj kv
    /\ map fst kv = record_keys
    /\ is_str (get_or kv "description" JNull) = true
    /\ is_str (get_or kv "text" JNull) = true
    /\ get_or kv "comments" JNull = JArr (map JStr comments)
    /\ get_or kv "derived_tasks" JNull = JObj tasks
    /\ map fst tasks = task_keys
    /\ forallb (fun task => is_str (snd task)) tasks = true.
Proof.
  intros H. unfold transform_issue, mbind in H. cbv zeta in H.
  steps_ok H. injection H as <-.
  eexists _, _, _. repeat split.
Qed.

Lemma transform_issue_schema_witness :
  exists kv tasks comments,
    JObj [("issue_key", JStr "ACE-1"); ("project", JStr EmptyString);
          ("title", JStr EmptyString); ("status", JStr EmptyString);
          ("reporter", JStr EmptyString); ("assignee", JStr "Unassigned");
          ("priority", JStr EmptyString); ("labels", JArr []);
          ("created", JStr EmptyString); ("updated", JStr EmptyString);
          ("description", JStr EmptyString); ("comments", JArr []);
          ("text", JStr (py_strip (nl +:+ nl +:+ "Description:" +:+ nl
                                   +:+ nl +:+ nl +:+ "Comments:" +:+ nl)));
          ("derived_tasks",
           JObj [("summarization",
                  JStr ("Summarize this issue: " +:+ nl +:+ nl +:+ "Description:"
                        +:+ nl +:+ nl +:+ nl +:+ "Comments:" +:+ nl));
                 ("classification",
                  JStr "Classify the issue '' into categories like 'Bug', 'Improvement', 'Task', or 'Feature'.");
                 ("qna",
                  JStr ("Q: What is the main problem described in issue ACE-1?"
                        +:+ nl +:+ "A: "))])]
    = JObj kv
    /\ map fst kv = record_keys
    /\ is_str (get_or kv "description" JNull) = true
    /\ is_str (get_or kv "text" JNull) = true
    /\ get_or kv "comments" JNull = JArr (map JStr comments)
    /\ get_or kv "derived_tasks" JNull = JObj tasks
    /\ map fst tasks = task_keys
    /\ forallb (fun task => is_str (snd task)) tasks = true.
Proof.
  apply (transform_issue_schema (sample_issue "ACE-1" [])). reflexivity.
Defined.

(** X14. In the record of an issue, the key, the summary, the labels and
    the two dates are passed through (with the empty string, or the empty
    list for the labels, when absent); an assignee that is absent, null or
    otherwise falsy becomes "Unassigned", and a description that is
    absent, null or empty becomes the empty string. *)
Theorem transform_issue_defaults (top fields kv : list (string * json)) :
  get_or top "fields" (JObj []) = JObj fields ->
  transform_issue (JObj top) = Ok (JObj kv) ->
  get_or kv "issue_key" JNull = get_or top "key" (JStr EmptyString)
  /\ get_or kv "title" JNull = get_or fields "summary" (JStr EmptyString)
  /\ get_or kv "labels" JNull = get_or fields "labels" (JArr [])
  /\ get_or kv "created" JNull = get_or fields "created" (JStr EmptyString)
  /\ get_or kv "updated" JNull = get_or fields "updated" (JStr EmptyString)
  /\ (truthy (get_or fields "assignee" JNull) = false ->
      get_or kv "assignee" JNull = JStr "Unassigned")
  /\ (truthy (get_or fields "description" JNull) = false ->
      get_or kv "description" JNull = JStr EmptyString).
Proof.
  intros Hfields H. unfold transform_issue in H.
  rewrite !py_get_obj in H. cbn [mbind outcome_bind] in H.
  rewrite Hfields in H. rewrite !py_get_obj in H.
  cbn [mbind outcome_bind] in H. cbv zeta in H. unfold mbind in H.
  steps_ok H. injection H as <-.
  repeat split.
  - intros Hfalsy. rewrite Hfalsy in *. cbn. congruence.
  - intros Hfalsy. unfold py_or in *. rewrite Hfalsy in *. cbn in *. congruence.
Qed.

Lemma transform_issue_defaults_witness :
  exists kv,
    transform_issue (sample_issue "ACE-1" [("assignee", JNull)]) = Ok (JObj kv)
    /\ get_or kv "issue_key" JNull = JStr "ACE-1"
    /\ get_or kv "assignee" JNull = JStr "Unassigned"
    /\ get_or kv "description" JNull = JStr EmptyString.
Proof.
  eexists. split; [reflexivity|].
  match goal with
  | |- get_or ?kv _ _ = _ /\ _ =>
      destruct (transform_issue_defaults
                  [("key"%string, JStr "ACE-1");
                   ("fields"%string, JObj [("assignee"%string, JNull)])]
                  [("assignee"%string, JNull)] kv eq_refl eq_refl)
        as (Hkey & _ & _ & _ & _ & Hassignee & Hdescription)
  end.
  split; [exact Hkey|]. split; [apply Hassignee|apply Hdescription]; reflexivity.
Defined.

(** X15. A project, status, reporter or priority that is present with
    the value null makes [transform_issue] raise [AttributeError]: the
    default of [get] is used for a missing key only.  (A null assignee is
    the one case the function guards.) *)
Theorem transform_issue_null_field (top fields : list (string * json)) :
  get_or top "fields" (JObj []) = JObj fields ->
  (get_or fields "project" (JObj []) = JNull
   \/ get_or fields "status" (JObj []) = JNull
   \/ get_or fields "reporter" (JObj []) = JNull
   \/ get_or fields "priority" (JObj []) = JNull) ->
  transform_issue (JObj top) = Raise AttributeError.
Proof.
  intros Hfields Hnull. unfold transform_issue.
  rewrite !py_get_obj. cbn [mbind outcome_bind].
  rewrite Hfields. rewrite !py_get_obj. cbn [mbind outcome_bind].
  destruct (get_or fields "project" (JObj [])) as [| | | | |project];
    try reflexivity.
  rewrite py_get_obj. cbn [mbind outcome_bind].
  destruct (get_or fields "status" (JObj [])) as [| | | | |status];
    try reflexivity.
  rewrite py_get_obj. cbn [mbind outcome_bind].
  destruct (get_or fields "reporter" (JObj [])) as [| | | | |reporter];
    try reflexivity.
  rewrite py_get_obj. cbn [mbind outcome_bind].
  destruct (truthy (get_or fields "assignee" JNull)).
  - destruct (get_or fields "assignee" (JObj [])) as [| | | | |assignee];
      try reflexivity.
    rewrite py_get_obj. cbn [mbind outcome_bind].
    destruct (get_or fields "priority" (JObj [])) as [| | | | |priority];
      try reflexivity.
    destruct Hnull as [H|[H|[H|H]]]; discriminate.
  - cbn [mbind outcome_bind].
    destruct (get_or fields "priority" (JObj [])) as [| | | | |priority];
      try reflexivity.
    destruct Hnull as [H|[H|[H|H]]]; discriminate.
Qed.

Lemma transform_issue_null_field_witness :
  transform_issue (sample_issue "ACE-7" [("reporter", JNull)]) = Raise AttributeError.
Proof.
  apply (transform_issue_null_field
           [("key"%string, JStr "ACE-7");
            ("fields"%string, JObj [("reporter"%string, JNull)])]
           [("reporter"%string, JNull)]).
  - reflexivity.
  - right. right. left. reflexivity.
Defined.

(** ** The loop over the completed futures, turn by turn *)

Lemma safe_request_shape net url params :
  exists r evs,
    (1 <= requests_made evs <= 5)%nat
    /\ file_writes evs = [] /\ progress_updates evs = 0%nat
    /\ forall w, safe_request net url params w = (r, log evs w).
Proof.
  destruct (attempts_shape net url params [1; 2; 3; 4; 5] one_to_five_nonneg)
    as (r & evs & Hle & Hge & Hnw & Hpr & _ & Hrun).
  exists r, evs. split; [split; [apply Hge; discriminate|exact Hle]|].
  split; [exact Hnw|]. split; [exact Hpr|].
  intros w. unfold safe_request. rewrite attempts_are_one_to_five.
  unfold mbind at 1, M_bind at 1, lift at 1. apply Hrun.
Qed.

Lemma transform_loop_prefix (items : list json) (w : world) :
  exists o,
    for_each items
      (fun issue => record ← lift (transform_issue issue); results_append record) w
    = (o, mkWorld (files w) (trace w) (results w ++ transformed_prefix items))
    /\ (forallb transforms items = true -> o = Ok tt)
    /\ (forallb transforms items = false -> exists e, o = Raise e).
Proof.
  revert w. induction items as [|issue items IH]; intros w.
  - exists (Ok tt). cbn. rewrite app_nil_r. destruct w.
    split; [reflexivity|]. split; [reflexivity|discriminate].
  - cbn [for_each forallb transformed_prefix]. unfold transforms at 1 3.
    unfold mbind at 1, M_bind at 1. unfold mbind at 1, M_bind at 1, lift at 1.
    destruct (transform_issue issue) as [record|e].
    + unfold results_append at 1.
      destruct (IH (mkWorld (files w) (trace w) (results w ++ [record])))
        as (o & Hrun & Hok & Hbad).
      exists o. cbn [files trace results] in Hrun.
      rewrite Hrun, <- app_assoc. auto.
    + exists (Raise e). rewrite app_nil_r. destruct w. cbn.
      split; [reflexivity|]. split; [discriminate|]. eauto.
Qed.

Section Turns.

Variable net : network.
Variable project_key : string.

Lemma fetch_page_shape start_at :
  exists evs,
    (1 <= requests_made evs <= 5)%nat
    /\ file_writes evs = [] /\ progress_updates evs = 0%nat
    /\ forall w, fetch_page net project_key start_at w
                 = (page_result net project_key start_at, log evs w).
Proof.
  destruct (safe_request_shape net BASE_URL (page_params project_key start_at))
    as (r & evs & Hreq & Hnw & Hpr & Hrun).
  exists evs. split; [exact Hreq|]. split; [exact Hnw|]. split; [exact Hpr|].
  assert (Hfetch : forall w, exists o,
             fetch_page net project_key start_at w = (o, log evs w)
             /\ o = match r with
                    | Ok data =>
                        if negb (truthy data) then Ok (start_at, JArr [])
                        else match py_get data "issues" (JArr []) with
                             | Ok issues => Ok (start_at, issues)
                             | Raise e => Raise e
                             end
                    | Raise e => Raise e
                    end).
  { intros w. unfold fetch_page, mbind, M_bind. rewrite Hrun.
    destruct r as [data|e]; [|eauto].
    destruct (negb (truthy data)); [eauto|].
    unfold lift. destruct (py_get data "issues" (JArr [])); eauto. }
  intros w. unfold page_result, result_of.
  destruct (Hfetch w) as (o & -> & ->).
  destruct (Hfetch (mkWorld ∅ [] [])) as (o' & -> & ->). reflexivity.
Qed.

Ltac finish_progress Hnw Hpr Hreq :=
  cbn; unfold emit, print, emit; cbn;
  rewrite <- ?app_assoc, ?app_nil_r; cbn;
  split; [reflexivity|];
  rewrite ?file_writes_app, ?progress_updates_app, ?requests_made_app, Hnw, Hpr;
  cbn; repeat split; lia.

(** One turn of the loop: it does not raise, turns the progress bar once,
    sends between one and five requests, appends the records of the page
    and touches no file but the checkpoint of the project. *)
Lemma process_future_turn start_at w :
  exists evs,
    process_future net project_key start_at w
    = (Ok tt,
       mkWorld (if unit_saves net project_key start_at
                then <[checkpoint_file project_key
                       := checkpoint_content (start_at + MAX_RESULTS)]> (files w)
                else files w)
               (trace w ++ evs)
               (results w ++ unit_records net project_key start_at))
    /\ file_writes evs
       = (if unit_saves net project_key start_at
          then [(checkpoint_file project_key,
                 checkpoint_content (start_at + MAX_RESULTS))]
          else [])
    /\ progress_updates evs = 1%nat
    /\ (1 <= requests_made evs <= 5)%nat.
Proof.
  destruct (fetch_page_shape start_at) as (evs & Hreq & Hnw & Hpr & Hfetch).
  unfold process_future, unit_saves, unit_records.
  unfold mbind at 1, M_bind at 1, try_except. unfold mbind at 1, M_bind at 1.
  rewrite Hfetch.
  destruct (page_result net project_key start_at) as [[o issues]|e].
  - cbn [snd]. destruct (truthy issues); cbn [andb].
    + unfold mbind at 1, M_bind at 1, lift at 1, all_transform.
      destruct (py_iter issues) as [items|e].
      * unfold mbind at 1, M_bind at 1.
        destruct (transform_loop_prefix items (log evs w)) as (r & Hloop & Hok & Hbad).
        rewrite Hloop. destruct (forallb transforms items).
        -- rewrite (Hok eq_refl).
           exists (evs ++ [FileWrite (checkpoint_file project_key)
                             (checkpoint_content (start_at + MAX_RESULTS));
                           ProgressUpdate]).
           finish_progress Hnw Hpr Hreq.
        -- destruct (Hbad eq_refl) as [e ->].
           exists (evs ++ [Print (ErrorProcessingFuture start_at e); ProgressUpdate]).
           finish_progress Hnw Hpr Hreq.
      * exists (evs ++ [Print (ErrorProcessingFuture start_at e); ProgressUpdate]).
        finish_progress Hnw Hpr Hreq.
    + exists (evs ++ [ProgressUpdate]).
      finish_progress Hnw Hpr Hreq.
  - exists (evs ++ [Print (ErrorProcessingFuture start_at e); ProgressUpdate]).
    finish_progress Hnw Hpr Hreq.
Qed.

(** The whole loop. *)
Lemma drain_turns (order : list Z) w :
  exists fs evs,
    for_each order (process_future net project_key) w
    = (Ok tt,
       mkWorld fs (trace w ++ evs)
         (results w ++ flat_map (unit_records net project_key) order))
    /\ progress_updates evs = length order
    /\ (length order <= requests_made evs <= 5 * length order)%nat
    /\ (forall path, path <> checkpoint_file project_key ->
                     fs !! path = files w !! path)
    /\ Forall (fun write => fst write = checkpoint_file project_key)
         (file_writes evs)
    /\ (order = [] -> evs = [] /\ fs = files w).
Proof.
  revert w. induction order as [|o order IH]; intros w.
  - exists (files w), []. cbn. rewrite !app_nil_r. destruct w.
    split; [reflexivity|]. split; [reflexivity|]. split; [lia|].
    split; [reflexivity|]. split; [constructor|]. auto.
  - destruct (process_future_turn o w) as (evs1 & Hrun & Hwr1 & Hpr1 & Hreq1).
    cbn [for_each]. erewrite bind_ok by exact Hrun.
    match type of Hrun with
    | _ = (_, ?w1) =>
        destruct (IH w1) as (fs & evs & Hrest & Hpr & Hreq & Hfs & Hwr & _)
    end.
    exists fs, (evs1 ++ evs).
    rewrite Hrest. cbn [files trace results flat_map length].
    rewrite !app_assoc, progress_updates_app, requests_made_app, file_writes_app.
    split; [reflexivity|]. split; [lia|]. split; [lia|]. split; [|split].
    + intros path Hpath. rewrite Hfs by exact Hpath. cbn [files].
      destruct (unit_saves net project_key o); [|reflexivity].
      apply lookup_insert_ne. congruence.
    + apply Forall_app. split; [|exact Hwr]. rewrite Hwr1.
      destruct (unit_saves net project_key o); repeat constructor.
    + discriminate.
Qed.

(** X16. The loop over the completed futures never raises, whatever the
    service answers and whatever the pages hold: it turns the progress bar
    once per page, sends at least one and at most five requests per page,
    appends to [results] the records of the pages in the order they
    complete (for a page with a record that cannot be transformed, the
    records before it), and writes nothing but the checkpoint file of the
    project. *)
Theorem pages_drained (order : list Z) (w : world) :
  let w' := world_after (for_each order (process_future net project_key)) w in
  let evs := events_since w w' in
  result_of (for_each order (process_future net project_key)) w = Ok tt
  /\ progress_updates evs = length order
  /\ (length order <= requests_made evs <= 5 * length order)%nat
  /\ results w' = results w ++ flat_map (unit_records net project_key) order
  /\ Forall (fun write => fst write = checkpoint_file project_key) (file_writes evs)
  /\ (forall path, path <> checkpoint_file project_key ->
                   files w' !! path = files w !! path).
Proof.
  destruct (drain_turns order w) as (fs & evs & Hrun & Hpr & Hreq & Hfs & Hwr & _).
  cbv zeta. unfold result_of, world_after. rewrite Hrun. cbn [fst snd].
  rewrite (events_since_app w _ evs) by reflexivity.
  cbn [results files]. auto 10.
Qed.

End Turns.

(** ** Complete runs of [scrape_project] *)

Lemma get_total_issues_shape net project_key :
  exists r evs,
    (1 <= requests_made evs <= 5)%nat
    /\ file_writes evs = [] /\ progress_updates evs = 0%nat
    /\ forall w, get_total_issues net project_key w = (r, log evs w).
Proof.
  destruct (safe_request_shape net BASE_URL (count_params project_key))
    as (r & evs & Hreq & Hnw & Hpr & Hrun).
  assert (Hshape : exists r', forall w,
             get_total_issues net project_key w = (r', log evs w)).
  { unfold get_total_issues, mbind, M_bind. fold (count_params project_key).
    destruct r as [data|e].
    - destruct (truthy data) eqn:Ht.
      + exists (py_get data "total" (JInt 0)). intros w. rewrite Hrun.
        cbv beta iota. rewrite Ht. reflexivity.
      + exists (Ok (JInt 0)). intros w. rewrite Hrun.
        cbv beta iota. rewrite Ht. reflexivity.
    - exists (Raise e). intros w. rewrite Hrun. reflexivity. }
  destruct Hshape as [r' Hshape]. exists r', evs. auto.
Qed.

Section CompleteRuns.

Variable net : network.
Variable as_completed : list Z -> list Z.
Variable project_key : string.
Variable w : world.

(** A run that gets past the plan goes through to the end. *)
Lemma scrape_project_full_run (total start_checkpoint : json) (pages : list Z)
    evsT evsL :
  (forall w', get_total_issues net project_key w' = (Ok total, log evsT w')) ->
  py_eq_zero total = false ->
  (forall w', files w' = files w ->
     planned_pages project_key total w'
     = (Ok (start_checkpoint, pages), log evsL w')) ->
  exists fs evs,
    scrape_project net as_completed project_key w
    = (Ok (flat_map (unit_records net project_key) (as_completed pages)),
       mkWorld
         (<[jsonl_file project_key
            := JsonLines (flat_map (unit_records net project_key) (as_completed pages))]>
            (<[json_file project_key
               := JsonText (JArr (flat_map (unit_records net project_key)
                                    (as_completed pages)))]> fs))
         (trace w
          ++ ([Print (ScraperInitiated project_key)] ++ evsT
              ++ [Print (TotalIssuesFound project_key total)] ++ evsL
              ++ [Print (ResumingFrom start_checkpoint (length pages))])
          ++ evs
          ++ [FileWrite (json_file project_key)
                (JsonText (JArr (flat_map (unit_records net project_key)
                                   (as_completed pages))));
              Print (Finished project_key
                       (length (flat_map (unit_records net project_key)
                                  (as_completed pages)))
                       (json_file project_key));
              FileWrite (jsonl_file project_key)
                (JsonLines (flat_map (unit_records net project_key)
                              (as_completed pages)));
              Print (Finished project_key
                       (length (flat_map (unit_records net project_key)
                                  (as_completed pages)))
                       (jsonl_file project_key))])
         (flat_map (unit_records net project_key) (as_completed pages)))
    /\ progress_updates evs = length (as_completed pages)
    /\ (length (as_completed pages) <= requests_made evs
        <= 5 * length (as_completed pages))%nat
    /\ (forall path, path <> checkpoint_file project_key ->
                     fs !! path = files w !! path)
    /\ Forall (fun write => fst write = checkpoint_file project_key)
         (file_writes evs)
    /\ (as_completed pages = [] -> evs = [] /\ fs = files w).
Proof.
  intros HrunT Hnz HrunL.
  set (w3 := log [Print (TotalIssuesFound project_key total)]
               (log evsT (log [Print (ScraperInitiated project_key)] w))).
  set (w6 := log [Print (ResumingFrom start_checkpoint (length pages))]
               (mkWorld (files w3) (trace (log evsL w3)) [])).
  destruct (drain_turns net project_key (as_completed pages) w6)
    as (fs & evs & Hdrain & Hpr & Hreq & Hfs & Hwr & Hnone).
  exists fs, evs. split; [|auto 10].
  unfold scrape_project.
  erewrite bind_ok by apply print_log.
  erewrite bind_ok by apply HrunT.
  erewrite bind_ok by apply print_log.
  rewrite Hnz.
  erewrite bind_ok by (apply HrunL; reflexivity). cbn [fst snd].
  erewrite bind_ok by reflexivity.
  erewrite bind_ok by apply print_log.
  erewrite bind_ok by exact Hdrain.
  unfold mbind, M_bind, results_get, write_file, print, emit, mret, M_ret.
  cbn [files trace results log w6 w3 app].
  unfold w6, w3, log. cbn [files trace results app].
  f_equal. f_equal.
  repeat first [rewrite <- app_assoc | progress cbn [app]]. reflexivity.
Qed.

(** X17. A run of [scrape_project] that gets past the plan (the total is
    not 0 and the pages can be planned) ends normally, whatever the pages
    answer.  It returns the records of the pages in the order in which the
    pages complete, ignoring what [results] held before; both output files
    hold exactly the returned records; they are written once, after every
    checkpoint save, the JSON array first; every file other than the
    checkpoint file and the two output files of the project is left as it
    was; and the run sends between one and five requests for the total and
    for each planned page. *)
Theorem scrape_project_outputs (total start_checkpoint : json) (pages : list Z) :
  result_of (get_total_issues net project_key) w = Ok total ->
  py_eq_zero total = false ->
  result_of (planned_pages project_key total) w = Ok (start_checkpoint, pages) ->
  let records := flat_map (unit_records net project_key) (as_completed pages) in
  let w' := world_after (scrape_project net as_completed project_key) w in
  let evs := events_since w w' in
  result_of (scrape_project net as_completed project_key) w = Ok records
  /\ results w' = records
  /\ files w' !! json_file project_key = Some (JsonText (JArr records))
  /\ files w' !! jsonl_file project_key = Some (JsonLines records)
  /\ (exists saves,
        file_writes evs
        = saves ++ [(json_file project_key, JsonText (JArr records));
                    (jsonl_file project_key, JsonLines records)]
        /\ Forall (fun write => fst write = checkpoint_file project_key) saves)
  /\ (forall path,
        path <> checkpoint_file project_key ->
        path <> json_file project_key -> path <> jsonl_file project_key ->
        files w' !! path = files w !! path)
  /\ (1 + length (as_completed pages) <= requests_made evs
      <= 5 * (1 + length (as_completed pages)))%nat.
Proof.
  intros Htotal Hnz Hplan.
  destruct (get_total_issues_shape net project_key)
    as (r & evsT & HreqT & HnwT & _ & HrunT).
  assert (r = Ok total) as ->.
  { unfold result_of in Htotal. rewrite HrunT in Htotal. exact Htotal. }
  destruct (planned_pages_run project_key total w) as (evsL & HnwL & HreqL & HrunL).
  rewrite Hplan in HrunL.
  destruct (scrape_project_full_run total start_checkpoint pages evsT evsL
              HrunT Hnz HrunL)
    as (fs & evs & Hrun & _ & Hreq & Hfs & Hwr & _).
  cbv zeta. unfold result_of, world_after. rewrite Hrun. cbn [fst snd].
  erewrite events_since_app by reflexivity.
  cbn [results files].
  split; [reflexivity|]. split; [reflexivity|]. split.
  { rewrite lookup_insert_ne by (apply not_eq_sym, outputs_differ).
    apply lookup_insert_eq. }
  split; [apply lookup_insert_eq|]. split.
  { exists (file_writes evs). split; [|exact Hwr].
    rewrite !file_writes_app, HnwT, HnwL. reflexivity. }
  split.
  { intros path Hc Hj Hl.
    rewrite lookup_insert_ne by congruence.
    rewrite lookup_insert_ne by congruence.
    apply Hfs, Hc. }
  rewrite !requests_made_app, HreqL. cbn [requests_made flat_map app length].
  cbn. lia.
Qed.

End CompleteRuns.


Lemma scrape_project_outputs_witness :
  result_of (scrape_project half_service id "ACE") empty_world
  = Ok (flat_map (unit_records half_service "ACE") [0; 50])
  /\ files (world_after (scrape_project half_service id "ACE") empty_world)
       !! json_file "ACE"
     = Some (JsonText (JArr (flat_map (unit_records half_service "ACE") [0; 50]))).
Proof.
  destruct (scrape_project_outputs half_service id "ACE" empty_world
              (JInt 100) (JInt 0) [0; 50])
    as (Hres & _ & Hjson & _).
  - reflexivity.
  - reflexivity.
  - reflexivity.
  - split; [exact Hres|exact Hjson].
Defined.

Section FinishedProject.

Variable net : network.
Variable as_completed : list Z -> list Z.
Variable project_key : string.
Variable w : world.

(** X18. A run of [scrape_project] on a project already fetched to the
    end (the stored checkpoint is at or past the total, which is not 0)
    plans no page, sends no request beyond those for the total and leaves
    the checkpoint as it is, but it still writes both output files: after
    it they hold the empty list, whatever an earlier run had left in
    them. *)
Theorem finished_project_outputs_emptied (total offset : Z) :
  result_of (get_total_issues net project_key) w = Ok (JInt total) ->
  total <> 0 ->
  files w !! checkpoint_file project_key = Some (checkpoint_content offset) ->
  total <= offset ->
  as_completed [] = [] ->
  let w' := world_after (scrape_project net as_completed project_key) w in
  result_of (scrape_project net as_completed project_key) w = Ok []
  /\ files w' !! json_file project_key = Some (JsonText (JArr []))
  /\ files w' !! jsonl_file project_key = Some (JsonLines [])
  /\ files w' !! checkpoint_file project_key = Some (checkpoint_content offset)
  /\ file_writes (events_since w w')
     = [(json_file project_key, JsonText (JArr []));
        (jsonl_file project_key, JsonLines [])]
  /\ requests_made (events_since w w')
     = requests_made
         (events_since w (world_after (get_total_issues net project_key) w)).
Proof.
  intros Htotal Hnz Hfile Hpast Hnone.
  assert (Hzero : py_eq_zero (JInt total) = false).
  { cbn. destruct (Z.eqb_spec total 0); [contradiction|reflexivity]. }
  pose proof (planned_pages_after_save project_key total offset w Hfile Hpast)
    as Hplan.
  destruct (get_total_issues_shape net project_key)
    as (r & evsT & _ & HnwT & _ & HrunT).
  assert (r = Ok (JInt total)) as ->.
  { unfold result_of in Htotal. rewrite HrunT in Htotal. exact Htotal. }
  destruct (planned_pages_run project_key (JInt total) w)
    as (evsL & HnwL & HreqL & HrunL).
  rewrite Hplan in HrunL.
  destruct (scrape_project_full_run net as_completed project_key w
              (JInt total) (JInt offset) [] evsT evsL HrunT Hzero HrunL)
    as (fs & evs & Hrun & _ & _ & _ & _ & Hempty).
  destruct (Hempty Hnone) as [-> ->].
  rewrite Hnone in Hrun. cbn [flat_map] in Hrun.
  cbv zeta. unfold result_of, world_after. rewrite Hrun, HrunT. cbn [fst snd].
  erewrite events_since_app by reflexivity.
  rewrite events_since_log. cbn [files].
  split; [reflexivity|]. split.
  { rewrite lookup_insert_ne by (apply not_eq_sym, outputs_differ).
    apply lookup_insert_eq. }
  split; [apply lookup_insert_eq|]. split.
  { rewrite lookup_insert_ne by apply jsonl_file_not_checkpoint.
    rewrite lookup_insert_ne by apply json_file_not_checkpoint.
    exact Hfile. }
  rewrite !file_writes_app, !requests_made_app, HnwT, HnwL, HreqL.
  split; [reflexivity|]. cbn. lia.
Qed.

End FinishedProject.

Lemma finished_project_outputs_emptied_witness :
  files finished_world !! json_file "ACE"
  = Some (JsonText (JArr [JStr "old records"]))
  /\ files (world_after (scrape_project half_service id "ACE") finished_world)
       !! json_file "ACE"
     = Some (JsonText (JArr [])).
Proof.
  destruct (finished_project_outputs_emptied half_service id "ACE" finished_world
              100 150)
    as (_ & Hjson & _).
  - reflexivity.
  - discriminate.
  - reflexivity.
  - vm_compute. discriminate.
  - reflexivity.
  - split; [reflexivity|exact Hjson].
Defined.


(** ** What the next run plans *)

Lemma planned_pages_from_save project_key total offset w :
  files w !! checkpoint_file project_key = Some (checkpoint_content offset) ->
  result_of (planned_pages project_key (JInt total)) w
  = Ok (JInt offset,
        range_up (Z.to_nat (total - offset)) offset total MAX_RESULTS).
Proof.
  intros Hf.
  destruct (load_checkpoint_run project_key w) as (evs & _ & _ & Hrun).
  rewrite (load_after_content project_key offset w Hf) in Hrun.
  unfold result_of, planned_pages. erewrite bind_ok by exact Hrun.
  unfold lift at 1. cbn [py_index mbind outcome_bind].
  rewrite plan_positive by (unfold MAX_RESULTS; lia). reflexivity.
Qed.

(** X19. After a run of [scrape_project], the next run plans from the
    checkpoint of the last page that saved, whatever happened to the pages
    before it: no page at or below that offset is planned again.  A page
    below it that failed, or whose records could not all be transformed,
    is therefore not fetched again by the next run. *)
Theorem next_plan_starts_after_last_save (net : network)
    (as_completed : list Z -> list Z) (project_key : string) (w : world)
    (total start : Z) (pages : list Z) (o : Z) :
  result_of (get_total_issues net project_key) w = Ok (JInt total) ->
  total <> 0 ->
  result_of (load_checkpoint project_key) w = Ok (JInt start) ->
  plan total start MAX_RESULTS = Ok pages ->
  last (List.filter (unit_saves net project_key) (as_completed pages)) = Some o ->
  let w' := world_after (scrape_project net as_completed project_key) w in
  exists next,
    result_of (planned_pages project_key (JInt total)) w'
    = Ok (JInt (o + MAX_RESULTS), next)
    /\ (forall p, In p next -> o + MAX_RESULTS <= p)
    /\ (forall p, In p (as_completed pages) -> p <= o -> ~ In p next).
Proof.
  intros Htotal Hnz Hload Hplan Hlast.
  destruct (scrape_project_run net as_completed project_key w total start pages
              Htotal Hnz Hload Hplan) as (records & w1 & Hrun & Hck & _).
  rewrite Hlast in Hck.
  cbv zeta. unfold world_after. rewrite Hrun. cbn [snd].
  eexists. split; [apply planned_pages_from_save, Hck|].
  assert (Hlow : forall p,
             In p (range_up (Z.to_nat (total - (o + MAX_RESULTS)))
                     (o + MAX_RESULTS) total MAX_RESULTS) ->
             o + MAX_RESULTS <= p).
  { intros p. apply range_up_lower. unfold MAX_RESULTS. lia. }
  split; [exact Hlow|].
  intros p _ Hle Hin. apply Hlow in Hin. unfold MAX_RESULTS in Hin. lia.
Qed.

Lemma next_plan_starts_after_last_save_witness :
  unit_saves half_service "ACE" 0 = false
  /\ exists next,
       result_of (planned_pages "ACE" (JInt 100))
         (world_after (scrape_project half_service id "ACE") empty_world)
       = Ok (JInt 100, next)
       /\ ~ In 0 next.
Proof.
  split; [reflexivity|].
  destruct (next_plan_starts_after_last_save half_service id "ACE" empty_world
              100 0 [0; 50] 50)
    as (next & Hplan & _ & Hnot).
  - reflexivity.
  - discriminate.
  - reflexivity.
  - reflexivity.
  - reflexivity.
  - exists next. split; [exact Hplan|].
    apply Hnot; [left; reflexivity|vm_compute; discriminate].
Defined.

(** X20. The pages planned by [scrape_project] cover the issue indices
    from the checkpoint up to the total without overlap: every index in
    that range lies in the window [p, p + MAX_RESULTS) requested for
    exactly one planned page p, and the request for p asks for that
    window. *)
Theorem planned_pages_cover (project_key : string) (total start i : Z) :
  start <= i < total ->
  exists pages p,
    plan total start MAX_RESULTS = Ok pages
    /\ In p pages
    /\ p <= i < p + MAX_RESULTS
    /\ py_get (page_params project_key p) "startAt" JNull = Ok (JInt p)
    /\ py_get (page_params project_key p) "maxResults" JNull = Ok (JInt MAX_RESULTS)
    /\ forall q, In q pages -> q <= i < q + MAX_RESULTS -> q = p.
Proof.
  intros Hi.
  assert (Hpos : 0 < MAX_RESULTS) by (unfold MAX_RESULTS; lia).
  eexists. exists (start + (i - start) / MAX_RESULTS * MAX_RESULTS).
  split; [apply plan_positive; exact Hpos|].
  pose proof (Z.div_mod (i - start) MAX_RESULTS) as Hdiv.
  pose proof (Z.mod_pos_bound (i - start) MAX_RESULTS Hpos) as Hmod.
  assert (Hk : 0 <= (i - start) / MAX_RESULTS) by (apply Z.div_pos; lia).
  split.
  { apply range_up_In; [exact Hpos|lia|].
    exists ((i - start) / MAX_RESULTS). split; [exact Hk|]. split; [reflexivity|].
    unfold MAX_RESULTS in *. lia. }
  split; [unfold MAX_RESULTS in *; lia|].
  split; [reflexivity|]. split; [reflexivity|].
  intros q Hq Hw.
  apply range_up_In in Hq; [|exact Hpos|lia].
  destruct Hq as (k & Hk0 & -> & _).
  assert (k = (i - start) / MAX_RESULTS); [|subst k; reflexivity].
  unfold MAX_RESULTS in *. nia.
Qed.

Lemma planned_pages_cover_witness :
  exists pages p,
    plan 120 50 MAX_RESULTS = Ok pages /\ In p pages /\ p <= 117 < p + MAX_RESULTS.
Proof.
  destruct (planned_pages_cover "ACE" 120 50 117) as (pages & p & H1 & H2 & H3 & _).
  - lia.
  - exists pages, p. auto.
Defined.

(** ** Files a run may touch *)

Lemma for_each_files {A} (l : list A) (body : A -> M unit) (path : string) :
  (forall x w, In x l -> files (world_after (body x) w) !! path = files w !! path) ->
  forall w, files (world_after (for_each l body) w) !! path = files w !! path.
Proof.
  induction l as [|x l IH]; intros Hbody w; [reflexivity|].
  cbn [for_each]. unfold world_after, mbind, M_bind.
  pose proof (Hbody x w (or_introl eq_refl)) as Hx. unfold world_after in Hx.
  destruct (body x w) as [[[]|e] w1]; cbn [snd] in *.
  - rewrite <- Hx. apply (IH (fun y w' Hy => Hbody y w' (or_intror Hy))).
  - exact Hx.
Qed.

Section Frame.

Variable net : network.
Variable as_completed : list Z -> list Z.

(** Whatever its outcome, a run of [scrape_project] changes and writes
    only the checkpoint file and the two output files of its project. *)
Lemma scrape_project_touches project_key w :
  exists r fs evs rs,
    scrape_project net as_completed project_key w
    = (r, mkWorld fs (trace w ++ evs) rs)
    /\ (forall path,
          path <> checkpoint_file project_key ->
          path <> json_file project_key -> path <> jsonl_file project_key ->
          fs !! path = files w !! path)
    /\ Forall (fun write => fst write = checkpoint_file project_key
                            \/ fst write = json_file project_key
                            \/ fst write = jsonl_file project_key)
         (file_writes evs).
Proof.
  destruct (get_total_issues_shape net project_key)
    as ([total|e] & evsT & _ & HnwT & _ & HrunT).
  - destruct (py_eq_zero total) eqn:Hzero.
    + eexists _, _, _, _. split.
      * rewrite (scrape_project_zero_total_run net as_completed project_key w
                   total evsT HrunT Hzero). reflexivity.
      * split; [reflexivity|].
        rewrite !file_writes_app, HnwT. constructor.
    + destruct (planned_pages_run project_key total w)
        as (evsL & HnwL & _ & HrunL).
      destruct (result_of (planned_pages project_key total) w)
        as [[start_checkpoint pages]|e].
      * destruct (scrape_project_full_run net as_completed project_key w
                    total start_checkpoint pages evsT evsL HrunT Hzero HrunL)
          as (fs & evs & Hrun & _ & _ & Hfs & Hwr & _).
        eexists _, _, _, _. split; [exact Hrun|]. split.
        -- intros path Hc Hj Hl.
           rewrite lookup_insert_ne by congruence.
           rewrite lookup_insert_ne by congruence.
           apply Hfs, Hc.
        -- rewrite !file_writes_app, HnwT, HnwL. cbn.
           apply Forall_app. split.
           ++ eapply List.Forall_impl; [|exact Hwr]. cbn. auto.
           ++ constructor; [cbn; auto|]. constructor; [cbn; auto|]. constructor.
      * eexists _, _, _, _. split.
        -- rewrite (scrape_project_plan_fails_run net as_completed project_key w
                      total e evsT evsL HrunT Hzero HrunL). reflexivity.
        -- split; [reflexivity|].
           rewrite !file_writes_app, HnwT, HnwL. constructor.
  - exists (Raise e), (files w), ([Print (ScraperInitiated project_key)] ++ evsT),
      (results w).
    split.
    + unfold scrape_project.
      erewrite bind_ok by apply print_log.
      unfold mbind at 1, M_bind at 1. rewrite HrunT.
      rewrite log_log. reflexivity.
    + split; [reflexivity|].
      rewrite !file_writes_app, HnwT. constructor.
Qed.

(** X21. Whatever the service answers and however the run ends,
    [scrape_project] leaves every file other than the checkpoint file and
    the two output files of its project as it was, and never writes to
    it. *)
Theorem scrape_project_frame (project_key : string) (w : world) (path : string) :
  path <> checkpoint_file project_key ->
  path <> json_file project_key ->
  path <> jsonl_file project_key ->
  let w' := world_after (scrape_project net as_completed project_key) w in
  files w' !! path = files w !! path
  /\ ~ In path (map fst (file_writes (events_since w w'))).
Proof.
  intros Hc Hj Hl.
  destruct (scrape_project_touches project_key w)
    as (r & fs & evs & rs & Hrun & Hfs & Hwr).
  cbv zeta. unfold world_after. rewrite Hrun. cbn [snd files].
  rewrite (events_since_app w _ evs) by reflexivity.
  split; [apply Hfs; assumption|].
  intros Hin. apply in_map_iff in Hin. destruct Hin as (write & Hpath & Hin).
  rewrite List.Forall_forall in Hwr. specialize (Hwr write Hin).
  rewrite Hpath in Hwr. tauto.
Qed.

(** X22. Whatever the service answers and however it ends, [main] leaves
    every file other than the checkpoint and output files of ACCUMULO, ACE
    and AMQCPP as it was. *)
Theorem main_frame (w : world) (path : string) :
  (forall project, In project ["ACCUMULO"; "ACE"; "AMQCPP"]%string ->
     path <> checkpoint_file project
     /\ path <> json_file project /\ path <> jsonl_file project) ->
  files (world_after (main net as_completed) w) !! path = files w !! path.
Proof.
  intros Hpath. unfold main. apply for_each_files.
  intros project w0 Hin. destruct (Hpath project Hin) as (Hc & Hj & Hl).
  destruct (scrape_project_touches project w0)
    as (r & fs & evs & rs & Hrun & Hfs & _).
  unfold world_after, mbind, M_bind. rewrite Hrun.
  destruct r; cbn [snd files]; apply Hfs; assumption.
Qed.

End Frame.

Lemma scrape_project_frame_witness :
  files (world_after (scrape_project half_service id "ACE") finished_world)
    !! checkpoint_file "AMQCPP"
  = files finished_world !! checkpoint_file "AMQCPP".
Proof.
  destruct (scrape_project_frame half_service id "ACE" finished_world
              (checkpoint_file "AMQCPP")) as [Hfiles _].
  - vm_compute. discriminate.
  - vm_compute. discriminate.
  - vm_compute. discriminate.
  - exact Hfiles.
Defined.

Lemma main_frame_witness :
  files (world_after (main half_service id) finished_world) !! "output/notes.txt"
  = files finished_world !! "output/notes.txt".
Proof.
  apply (main_frame half_service id finished_world "output/notes.txt").
  intros project [<-|[<-|[<-|[]]]]; repeat split; vm_compute; discriminate.
Defined.
